(** * Human Alert: alert lifecycle, realtime channel, geodesy

    A shallow embedding of the core logic of the Human Alert client:
    - [Geodesy]: [calculateDistance], [calculateBearing], [getDirectionText]
      of the alert view (and the [AlertCard] variant of the last one);
      [Binary64] has the first and the last one on floating-point
      numbers;
    - [AlertStore]: the zustand store and its [reset];
    - [Home]: the home screen's event handlers and timers
      (alert received / ended, dismiss, emergency press, cooldown tick,
      alert countdown tick);
    - [Socket]: [SocketService] over a model of the socket.io transport;
    - [EmergencySound]: [playAlertBurst] and the asynchronous sound player.

    JavaScript [number]s that carry coordinates, distances and angles are
    read as real numbers, except in [Binary64]; second counters and
    millisecond clocks are integers. Dialogs, vibration and notifications are left out, except
    where a handler's answer to the user is what a property is about. *)

From stdpp Require Import base strings list gmap.
From Stdlib Require Import ZArith Reals Lra Lia.
From Stdlib Require Floats.

Set Warnings "-clear-no-such-hyp".

(** ** The parts of the JavaScript [Math] object the sources use *)

Module JSMath.
Local Open Scope R_scope.

(** [Math.round]: the nearest integer, a tie going to the integer closer
    to plus infinity. *)
Definition round (x : R) : Z := Int_part (x + / 2).

(** [Math.atan2 y x], the angle of the point [(x, y)] in [(-PI, PI]]. *)
Definition atan2 (y x : R) : R :=
  if Rlt_dec 0 x then atan (y / x)
  else if Rlt_dec x 0 then
    (if Rle_dec 0 y then atan (y / x) + PI else atan (y / x) - PI)
  else if Rlt_dec 0 y then PI / 2
  else if Rlt_dec y 0 then - (PI / 2)
  else 0.

(** The remainder operator [%]: the result has the sign of the dividend. *)
Definition rem (x y : R) : R :=
  if Rle_dec 0 (x / y) then x - y * IZR (Int_part (x / y))
  else x + y * IZR (Int_part (- (x / y))).

(** [!x] for a number: only zero is falsy (there is no NaN among reals). *)
Definition falsy (x : R) : bool := if Req_dec_T x 0 then true else false.
End JSMath.

(** ** Geodesy helpers of the alert view *)

Module Geodesy.
Local Open Scope R_scope.
Import JSMath.

(** [calculateDistance(lat1, lon1, lat2, lon2)]: haversine distance in
    metres, after the guard that answers 0 for a falsy component. *)
Definition haversine (lat1 lon1 lat2 lon2 : R) : R :=
  let R0 := 6371000 in
  let dLat := ((lat2 - lat1) * PI) / 180 in
  let dLon := ((lon2 - lon1) * PI) / 180 in
  let a :=
    sin (dLat / 2) * sin (dLat / 2) +
    cos ((lat1 * PI) / 180) *
      cos ((lat2 * PI) / 180) *
      sin (dLon / 2) *
      sin (dLon / 2) in
  let c := 2 * atan2 (sqrt a) (sqrt (1 - a)) in
  R0 * c.

Definition calculateDistance (lat1 lon1 lat2 lon2 : R) : R :=
  if falsy lat1 || falsy lon1 || falsy lat2 || falsy lon2 then 0
  else haversine lat1 lon1 lat2 lon2.

(** [calculateBearing(lat1, lon1, lat2, lon2)]: forward azimuth in degrees. *)
Definition forwardAzimuth (lat1 lon1 lat2 lon2 : R) : R :=
  let dLon := ((lon2 - lon1) * PI) / 180 in
  let lat1Rad := (lat1 * PI) / 180 in
  let lat2Rad := (lat2 * PI) / 180 in
  let x := sin dLon * cos lat2Rad in
  let y := cos lat1Rad * sin lat2Rad - sin lat1Rad * cos lat2Rad * cos dLon in
  let bearing := atan2 x y * (180 / PI) in
  rem (bearing + 360) 360.

Definition calculateBearing (lat1 lon1 lat2 lon2 : R) : R :=
  if falsy lat1 || falsy lon1 || falsy lat2 || falsy lon2 then 0
  else forwardAzimuth lat1 lon1 lat2 lon2.

Definition directions : list string :=
  ["N"; "NE"; "E"; "SE"; "S"; "SW"; "W"; "NW"]%string.

(** [directions[index]] for an integral index: [None] is [undefined]. *)
Definition direction_at (index : Z) : option string :=
  if (index <? 0)%Z then None else directions !! Z.to_nat index.

(** [getDirectionText] of the alert view:
    [directions[Math.round((bearing || 0) / 45) % 8]]. *)
Definition getDirectionText (bearing : R) : option string :=
  let index := Z.rem (round ((if falsy bearing then 0 else bearing) / 45)) 8 in
  direction_at index.

(** [getDirectionText] of [AlertCard]: the same without the [|| 0]. *)
Definition getDirectionText_card (bearing : R) : option string :=
  let index := Z.rem (round (bearing / 45)) 8 in
  direction_at index.

(** Rounding to the nearest integer with ties away from zero, the rule the
    specification names for [compassOctant]. *)
Definition round_half_away (x : R) : Z :=
  if Rlt_dec x 0 then (- Int_part (- x + / 2))%Z else Int_part (x + / 2).

(** [compassOctant] as the specification words it:
    [round(bearing/45) mod 8] with ties away from zero. *)
Definition compassOctant (bearing : R) : option string :=
  direction_at (round_half_away (bearing / 45) mod 8)%Z.
End Geodesy.

(** ** Binary64 numbers

    [getDirectionText] and [calculateDistance] once more, on the numbers
    the runtime computes with, to evaluate them at given arguments. *)

Module Binary64.
Import Floats.
Local Open Scope Z_scope.

(** [Math.round] of a binary64 number, exactly: [floor (x + 1/2)] of the
    value [(-1)^sgn * m * 2^e]; [None] for an infinity or NaN. *)
Definition round (x : float) : option Z :=
  match Prim2SF x with
  | S754_zero _ => Some 0
  | S754_finite sgn m e =>
      let n := if sgn then Z.neg m else Z.pos m in
      Some (if 0 <=? e then n * 2 ^ e
            else (2 * n + 2 ^ (- e)) / 2 ^ (1 - e))
  | S754_infinity _ | S754_nan => None
  end.

(** [bearing || 0]: zero and NaN are falsy. *)
Definition or_zero (bearing : float) : float :=
  if PrimFloat.eqb bearing 0 || PrimFloat.is_nan bearing then 0%float
  else bearing.

Definition getDirectionText (bearing : float) : option string :=
  match round (or_zero bearing / 45)%float with
  | Some n => Geodesy.direction_at (Z.rem n 8)
  | None => None
  end.

Definition getDirectionText_card (bearing : float) : option string :=
  match round (bearing / 45)%float with
  | Some n => Geodesy.direction_at (Z.rem n 8)
  | None => None
  end.

(** The eight octant boundaries. *)
Definition boundaries : list float :=
  [22.5; 67.5; 112.5; 157.5; 202.5; 247.5; 292.5; 337.5]%float.

(** [Math.PI]. *)
Definition Math_PI : float := 0x1.921fb54442d18p+1%float.

(** [!x] for a number: zero and NaN are falsy. *)
Definition falsy (x : float) : bool :=
  PrimFloat.eqb x 0 || PrimFloat.is_nan x.

(** [calculateDistance] on binary64 numbers. Sums, differences, products,
    quotients and [Math.sqrt] are those of IEEE 754; [Math.sin],
    [Math.cos] and [Math.atan2], whose precision ECMAScript leaves to the
    implementation, are those of the runtime at hand. *)
Section Runtime.
Variables Math_sin Math_cos : float -> float.
Variable Math_atan2 : float -> float -> float.

Definition calculateDistance (lat1 lon1 lat2 lon2 : float) : float :=
  if falsy lat1 || falsy lon1 || falsy lat2 || falsy lon2 then 0%float
  else
    let R0 := 6371000%float in
    let dLat := (((lat2 - lat1) * Math_PI) / 180)%float in
    let dLon := (((lon2 - lon1) * Math_PI) / 180)%float in
    let a :=
      (Math_sin (dLat / 2) * Math_sin (dLat / 2) +
       Math_cos ((lat1 * Math_PI) / 180) *
         Math_cos ((lat2 * Math_PI) / 180) *
         Math_sin (dLon / 2) *
         Math_sin (dLon / 2))%float in
    let c :=
      (2 * Math_atan2 (PrimFloat.sqrt a) (PrimFloat.sqrt (1 - a)))%float in
    (R0 * c)%float.
End Runtime.

(** *** A runtime seen at two calls

    The sine and the cosine at the arguments that
    [calculateDistance(2.5, 90, -2.5, -90)] and the call with the two
    points exchanged pass to them, with the correctly rounded values,
    which the C library returns there; NaN stands for the values that
    were not looked at. *)
Definition sin_seen (x : float) : float :=
  if PrimFloat.eqb x (-0x1.657184ae74487p-5) then (-0x1.65547c4694e11p-5)%float
  else if PrimFloat.eqb x 0x1.657184ae74487p-5 then 0x1.65547c4694e11p-5%float
  else if PrimFloat.eqb x (-0x1.921fb54442d18p+0) then (-1)%float
  else if PrimFloat.eqb x 0x1.921fb54442d18p+0 then 1%float
  else nan.

Definition cos_seen (x : float) : float :=
  if PrimFloat.eqb (abs x) 0x1.657184ae74487p-5 then 0x1.ff833f9da45f7p-1%float
  else nan.

(** [Math.atan2] was not looked at either: the two calls reach it with
    a NaN argument, for which ECMAScript fixes the answer, NaN. *)
Definition atan2_seen (y x : float) : float := nan.
End Binary64.

(** ** The zustand store ([useAlertStore]) *)

Module Alert.
Record t := {
  alert_id : string;
  latitude : R;
  longitude : R;
  heading : option R;
  distance : R;
  bearing : R;
  timestamp : string;
  current_radius : R;
  responder_count : Z;
}.
End Alert.

Module MyAlert.
Record t := {
  alert_id : string;
  latitude : R;
  longitude : R;
}.
End MyAlert.

Module Location.
Record t := {
  latitude : R;
  longitude : R;
  heading : option R;
}.
End Location.

Module AlertStore.
Record t := {
  deviceId : option string;
  pushToken : option string;
  isRegistered : bool;
  myActiveAlert : option MyAlert.t;
  nearbyAlerts : list Alert.t;
  selectedAlert : option Alert.t;
  canTrigger : bool;
  cooldownRemaining : Z;
  currentLocation : option Location.t;
  isLoading : bool;
  error : option string;
  isConnected : bool;
}.

Definition initial : t := {|
  deviceId := None; pushToken := None; isRegistered := false;
  myActiveAlert := None; nearbyAlerts := []; selectedAlert := None;
  canTrigger := true; cooldownRemaining := 0%Z;
  currentLocation := None; isLoading := false; error := None;
  isConnected := false |}.

Definition setMyActiveAlert (alert : option MyAlert.t) (st : t) : t := {|
  deviceId := deviceId st; pushToken := pushToken st;
  isRegistered := isRegistered st;
  myActiveAlert := alert; nearbyAlerts := nearbyAlerts st;
  selectedAlert := selectedAlert st;
  canTrigger := canTrigger st; cooldownRemaining := cooldownRemaining st;
  currentLocation := currentLocation st; isLoading := isLoading st;
  error := error st; isConnected := isConnected st |}.

Definition setNearbyAlerts (alerts : list Alert.t) (st : t) : t := {|
  deviceId := deviceId st; pushToken := pushToken st;
  isRegistered := isRegistered st;
  myActiveAlert := myActiveAlert st; nearbyAlerts := alerts;
  selectedAlert := selectedAlert st;
  canTrigger := canTrigger st; cooldownRemaining := cooldownRemaining st;
  currentLocation := currentLocation st; isLoading := isLoading st;
  error := error st; isConnected := isConnected st |}.

Definition setCanTrigger (can : bool) (st : t) : t := {|
  deviceId := deviceId st; pushToken := pushToken st;
  isRegistered := isRegistered st;
  myActiveAlert := myActiveAlert st; nearbyAlerts := nearbyAlerts st;
  selectedAlert := selectedAlert st;
  canTrigger := can; cooldownRemaining := cooldownRemaining st;
  currentLocation := currentLocation st; isLoading := isLoading st;
  error := error st; isConnected := isConnected st |}.

Definition setCooldownRemaining (seconds : Z) (st : t) : t := {|
  deviceId := deviceId st; pushToken := pushToken st;
  isRegistered := isRegistered st;
  myActiveAlert := myActiveAlert st; nearbyAlerts := nearbyAlerts st;
  selectedAlert := selectedAlert st;
  canTrigger := canTrigger st; cooldownRemaining := seconds;
  currentLocation := currentLocation st; isLoading := isLoading st;
  error := error st; isConnected := isConnected st |}.

Definition setCurrentLocation (location : option Location.t) (st : t) : t := {|
  deviceId := deviceId st; pushToken := pushToken st;
  isRegistered := isRegistered st;
  myActiveAlert := myActiveAlert st; nearbyAlerts := nearbyAlerts st;
  selectedAlert := selectedAlert st;
  canTrigger := canTrigger st; cooldownRemaining := cooldownRemaining st;
  currentLocation := location; isLoading := isLoading st;
  error := error st; isConnected := isConnected st |}.

(** [reset]: back to no alert, no cooldown; identity, location and
    connection flags are kept. *)
Definition reset (st : t) : t := {|
  deviceId := deviceId st; pushToken := pushToken st;
  isRegistered := isRegistered st;
  myActiveAlert := None; nearbyAlerts := []; selectedAlert := None;
  canTrigger := true; cooldownRemaining := 0%Z;
  currentLocation := currentLocation st; isLoading := isLoading st;
  error := None; isConnected := isConnected st |}.
End AlertStore.

(** ** The home screen *)

(** Payload of the [alert_received] event, as the handler reads it. *)
Module AlertReceived.
Record t := {
  alert_id : string;
  latitude : R;
  longitude : R;
  distance : R;
  bearing : option R;
  timestamp : string;
  current_radius : option R;
}.
End AlertReceived.

(** Payload of the [alert_ended] event. *)
Module AlertEnded.
Record t := {
  alert_id : string;
  reason : string;
}.
End AlertEnded.

Module Home.
Local Open Scope Z_scope.
Import AlertStore.

(** Alert duration in seconds (20 minutes). *)
Definition ALERT_DURATION : Z := 1200.

(** The component state ([useState] cells) together with the store. *)
Record t := {
  initializing : bool;
  isProcessing : bool;
  incomingAlert : option Alert.t;
  nearbyUsersCount : Z;
  currentAddress : string;
  alertStartTime : option Z;
  alertTimeRemaining : Z;
  store : AlertStore.t;
}.

Definition initial : t := {|
  initializing := true; isProcessing := false; incomingAlert := None;
  nearbyUsersCount := 0; currentAddress := EmptyString; alertStartTime := None;
  alertTimeRemaining := 0; store := AlertStore.initial |}.

Definition setIsProcessing (b : bool) (s : t) : t := {|
  initializing := initializing s; isProcessing := b;
  incomingAlert := incomingAlert s; nearbyUsersCount := nearbyUsersCount s;
  currentAddress := currentAddress s; alertStartTime := alertStartTime s;
  alertTimeRemaining := alertTimeRemaining s; store := store s |}.

Definition setIncomingAlert (a : option Alert.t) (s : t) : t := {|
  initializing := initializing s; isProcessing := isProcessing s;
  incomingAlert := a; nearbyUsersCount := nearbyUsersCount s;
  currentAddress := currentAddress s; alertStartTime := alertStartTime s;
  alertTimeRemaining := alertTimeRemaining s; store := store s |}.

Definition setCurrentAddress (a : string) (s : t) : t := {|
  initializing := initializing s; isProcessing := isProcessing s;
  incomingAlert := incomingAlert s; nearbyUsersCount := nearbyUsersCount s;
  currentAddress := a; alertStartTime := alertStartTime s;
  alertTimeRemaining := alertTimeRemaining s; store := store s |}.

Definition setAlertStartTime (t0 : option Z) (s : t) : t := {|
  initializing := initializing s; isProcessing := isProcessing s;
  incomingAlert := incomingAlert s; nearbyUsersCount := nearbyUsersCount s;
  currentAddress := currentAddress s; alertStartTime := t0;
  alertTimeRemaining := alertTimeRemaining s; store := store s |}.

Definition setAlertTimeRemaining (r : Z) (s : t) : t := {|
  initializing := initializing s; isProcessing := isProcessing s;
  incomingAlert := incomingAlert s; nearbyUsersCount := nearbyUsersCount s;
  currentAddress := currentAddress s; alertStartTime := alertStartTime s;
  alertTimeRemaining := r; store := store s |}.

(** A store action run from the screen. *)
Definition onStore (f : AlertStore.t -> AlertStore.t) (s : t) : t := {|
  initializing := initializing s; isProcessing := isProcessing s;
  incomingAlert := incomingAlert s; nearbyUsersCount := nearbyUsersCount s;
  currentAddress := currentAddress s; alertStartTime := alertStartTime s;
  alertTimeRemaining := alertTimeRemaining s; store := f (store s) |}.

(** [x || d] for an optional number: absent and zero both give [d]. *)
Definition or_default (x : option R) (d : R) : R :=
  match x with
  | Some v => if JSMath.falsy v then d else v
  | None => d
  end.

(** The [alert_received] handler: the banner alert is set from the
    payload, whatever was shown before. *)
Definition onAlertReceived (data : AlertReceived.t) (s : t) : t :=
  setIncomingAlert (Some {|
    Alert.alert_id := AlertReceived.alert_id data;
    Alert.latitude := AlertReceived.latitude data;
    Alert.longitude := AlertReceived.longitude data;
    Alert.heading := None;
    Alert.distance := AlertReceived.distance data;
    Alert.bearing := or_default (AlertReceived.bearing data) 0%R;
    Alert.timestamp := AlertReceived.timestamp data;
    Alert.current_radius :=
      or_default (AlertReceived.current_radius data) 300%R;
    Alert.responder_count := 0 |}) s.

(** The [alert_ended] handler. It reads [myActiveAlert], [incomingAlert]
    and [nearbyAlerts] from the render it was created in, [seen], and
    writes to the current state [s]. *)
Definition onAlertEnded (seen : t) (data : AlertEnded.t) (s : t) : t :=
  let s1 :=
    if decide (MyAlert.alert_id <$> myActiveAlert (store seen)
               = Some (AlertEnded.alert_id data))
    then onStore reset
           (setCurrentAddress EmptyString (onStore (setMyActiveAlert None) s))
    else s in
  let s2 :=
    if decide (Alert.alert_id <$> incomingAlert seen
               = Some (AlertEnded.alert_id data))
    then setIncomingAlert None s1
    else s1 in
  onStore (setNearbyAlerts
             (filter (fun a => Alert.alert_id a <> AlertEnded.alert_id data)
                     (nearbyAlerts (store seen)))) s2.

(** Tail of [updateAndFetchData]: the fetched list replaces
    [nearbyAlerts], and its head is shown when nothing is, as far as the
    render [seen] knows. *)
Definition onNearbyAlerts (seen : t) (alerts : list Alert.t) (s : t) : t :=
  let s1 := onStore (setNearbyAlerts alerts) s in
  match alerts, myActiveAlert (store seen), incomingAlert seen with
  | a :: _, None, None => setIncomingAlert (Some a) s1
  | _, _, _ => s1
  end.

(** [handleDismissAlert]. *)
Definition handleDismissAlert (s : t) : t := setIncomingAlert None s.

(** The cooldown timer: one firing of the one-second interval that the
    effect installs while [cooldownRemaining > 0]. *)
Definition cooldownTick (s : t) : t :=
  let c := cooldownRemaining (store s) in
  if c <=? 0 then s
  else
    let s1 := onStore (setCooldownRemaining (Z.max 0 (c - 1))) s in
    if c <=? 1 then onStore (setCanTrigger true) s1 else s1.

(** [!alertStartTime]: [null] and 0 are falsy. *)
Definition startTime (s : t) : option Z :=
  match alertStartTime s with
  | Some t0 => if t0 =? 0 then None else Some t0
  | None => None
  end.

(** The alert countdown: without an active alert or a start time the
    effect zeroes the remaining time; otherwise one firing of its
    one-second interval at clock [now] (milliseconds). *)
Definition alertCountdownTick (now : Z) (s : t) : t :=
  match myActiveAlert (store s), startTime s with
  | Some _, Some t0 =>
      let elapsed := (now - t0) / 1000 in
      let remaining := Z.max 0 (ALERT_DURATION - elapsed) in
      let s1 := setAlertTimeRemaining remaining s in
      if remaining <=? 0 then
        onStore reset
          (setCurrentAddress EmptyString
             (setAlertStartTime None (onStore (setMyActiveAlert None) s1)))
      else s1
  | _, _ => setAlertTimeRemaining 0 s
  end.

(** What one press of the emergency button meets outside the component. *)
Record PressEnv := {
  hasPermission : bool;
  getCurrentLocation : option Location.t;
  getAddressFromCoords : string;
  triggerAlert : option string;
  now : Z;
}.

(** How a press ends: [Ignored] is the return without a word (a press
    being processed, or an alert active); the others are the dialogs
    "Location Required", "Cooldown Active" (with the seconds left),
    "Unable to get your location", the error of the rejected request, and
    "Emergency Alert Sent!". *)
Inductive PressOutcome :=
| Ignored
| LocationRequired
| CooldownActive (seconds : Z)
| LocationFailed
| SendFailed
| AlertSent (alert_id : string).

(** [handleEmergencyPress]. [triggerAlert env = None] stands for a
    rejected request. *)
Definition handleEmergencyPress (env : PressEnv) (s : t) : PressOutcome * t :=
  if isProcessing s then (Ignored, s)
  else if bool_decide (is_Some (myActiveAlert (store s))) then (Ignored, s)
  else if negb (hasPermission env) then (LocationRequired, s)
  else if negb (canTrigger (store s)) then
    (CooldownActive (cooldownRemaining (store s)), s)
  else
    let s1 := setIsProcessing true s in
    match getCurrentLocation env with
    | None => (LocationFailed, setIsProcessing false s1)
    | Some location =>
        let s2 := onStore (setCurrentLocation (Some location)) s1 in
        let s3 := setCurrentAddress (getAddressFromCoords env) s2 in
        match triggerAlert env with
        | None => (SendFailed, setIsProcessing false s3)
        | Some id =>
            let alert := {|
              MyAlert.alert_id := id;
              MyAlert.latitude := Location.latitude location;
              MyAlert.longitude := Location.longitude location |} in
            let s4 := onStore (setMyActiveAlert (Some alert)) s3 in
            let s5 := setAlertStartTime (Some (now env)) s4 in
            let s6 := onStore (setCanTrigger false) s5 in
            let s7 := onStore (setCooldownRemaining 60) s6 in
            (AlertSent id, setIsProcessing false s7)
        end
    end.

(** The error classes of the lifecycle, and the class of each refusal:
    the guards on an active alert, a press in flight and the cooldown are
    preconditions of the trigger; the two location failures leave it
    without a location; a rejected request is a network failure. *)
Inductive TriggerError :=
| PreconditionFailed
| LocationUnavailable
| NetworkUnavailable.

Definition errorOf (o : PressOutcome) : option TriggerError :=
  match o with
  | Ignored | CooldownActive _ => Some PreconditionFailed
  | LocationRequired | LocationFailed => Some LocationUnavailable
  | SendFailed => Some NetworkUnavailable
  | AlertSent _ => None
  end.

(** The lifecycle as read off the state. *)
Definition Active (s : t) : Prop := is_Some (myActiveAlert (store s)).
Definition CoolingDown (s : t) : Prop := canTrigger (store s) = false.
Definition Idle (s : t) : Prop :=
  myActiveAlert (store s) = None /\ canTrigger (store s) = true
  /\ cooldownRemaining (store s) = 0.

(** The device's own alert state: what [trigger], the timers and
    [alert_ended] decide on. *)
Definition ownAlertState (s : t)
  : option MyAlert.t * bool * Z * option Z :=
  (myActiveAlert (store s), canTrigger (store s),
   cooldownRemaining (store s), alertStartTime s).

(** One second goes by: the cooldown interval and the countdown interval
    both fire, the clock reading [now]. *)
Definition tickAt (now : Z) (s : t) : t :=
  alertCountdownTick now (cooldownTick s).

(** [k] seconds go by from clock reading [t0]; the timers fire [j]
    milliseconds after each full second. *)
Fixpoint secondsPass (j t0 : Z) (k : nat) (s : t) : t :=
  match k with
  | O => s
  | S k' => tickAt (t0 + 1000 * Z.of_nat k + j) (secondsPass j t0 k' s)
  end.

(** *** Device status, the button, the alert view's clock text *)

(** The answer of [getDeviceStatus]. *)
Record DeviceStatus := {
  can_trigger_alert : bool;
  cooldown_remaining : Z;
  has_active_alert : bool;
  active_alert_id : option string;
}.

(** The end of [setupDevice]: trigger state as the server reports it, and
    the active alert, if the server names one, placed at the location the
    render [seen] knows (0 when it knows none). *)
Definition applyStatus (seen : t) (status : DeviceStatus) (s : t) : t :=
  let s1 := onStore (setCanTrigger (can_trigger_alert status)) s in
  let s2 := onStore (setCooldownRemaining (cooldown_remaining status)) s1 in
  match has_active_alert status, active_alert_id status with
  | true, Some id =>
      if decide (id = EmptyString) then s2
      else
        let here := currentLocation (store seen) in
        onStore (setMyActiveAlert (Some {|
          MyAlert.alert_id := id;
          MyAlert.latitude := or_default (Location.latitude <$> here) 0%R;
          MyAlert.longitude := or_default (Location.longitude <$> here) 0%R
        |})) s2
  | _, _ => s2
  end.

(** The [disabled] flag the screen hands to [EmergencyButton], and the
    one the button puts on its touchable. *)
Definition buttonDisabledProp (s : t) : bool :=
  negb (canTrigger (store s))
  && negb (bool_decide (is_Some (myActiveAlert (store s)))).

Definition touchableDisabled (s : t) : bool :=
  bool_decide (is_Some (myActiveAlert (store s)))
  || (buttonDisabledProp s && (0 <? cooldownRemaining (store s))).

(** *** A device in Abuja *)

Definition abuja : Location.t := {|
  Location.latitude := 9.0579; Location.longitude := 7.4951;
  Location.heading := None |}.

(** A press that finds a location and has its request accepted. *)
Definition goodPress : PressEnv := {|
  hasPermission := true; getCurrentLocation := Some abuja;
  getAddressFromCoords := "Your current location";
  triggerAlert := Some "alert-1"%string; now := 1700000000000 |}.

(** A press without location permission. *)
Definition noPermission : PressEnv := {|
  hasPermission := false; getCurrentLocation := None;
  getAddressFromCoords := "Your current location";
  triggerAlert := Some "alert-1"%string; now := 1700000000000 |}.

Definition idle : t := initial.

(** The state right after a successful trigger. *)
Definition triggered : t := snd (handleEmergencyPress goodPress idle).

(** No alert of one's own, 42 seconds of cooldown left (as the device
    status can report at start-up). *)
Definition cooling : t :=
  onStore (AlertStore.setCooldownRemaining 42)
    (onStore (AlertStore.setCanTrigger false) idle).

Definition ended (id : string) : AlertEnded.t :=
  {| AlertEnded.alert_id := id; AlertEnded.reason := "user_safe" |}.

Definition farAlert : AlertReceived.t := {|
  AlertReceived.alert_id := "alert-far";
  AlertReceived.latitude := 9.0619; AlertReceived.longitude := 7.4951;
  AlertReceived.distance := 450; AlertReceived.bearing := Some 180%R;
  AlertReceived.timestamp := "2025-01-01T10:00:00Z";
  AlertReceived.current_radius := Some 600%R |}.

Definition nearAlert : AlertReceived.t := {|
  AlertReceived.alert_id := "alert-near";
  AlertReceived.latitude := 9.0588; AlertReceived.longitude := 7.4951;
  AlertReceived.distance := 100; AlertReceived.bearing := None;
  AlertReceived.timestamp := "2025-01-01T10:00:05Z";
  AlertReceived.current_radius := None |}.

(** The far alert as [getNearbyAlerts] lists it. *)
Definition farListed : Alert.t := {|
  Alert.alert_id := "alert-far";
  Alert.latitude := 9.0619; Alert.longitude := 7.4951;
  Alert.heading := None; Alert.distance := 450; Alert.bearing := 180;
  Alert.timestamp := "2025-01-01T10:00:00Z";
  Alert.current_radius := 600; Alert.responder_count := 2 |}.

(** Idle, with the far alert on the nearby list. *)
Definition watching : t :=
  onStore (AlertStore.setNearbyAlerts [farListed]) idle.

(** The far alert on the banner, and on the nearby list too. *)
Definition alerted : t := onAlertReceived farAlert watching.

(** A device status that names an alert of this device as active, and
    the screen after [setupDevice] has taken it over (the application was
    started again while the alert ran). *)
Definition activeStatus : DeviceStatus := {|
  can_trigger_alert := false; cooldown_remaining := 0;
  has_active_alert := true; active_alert_id := Some "alert-9"%string |}.

Definition restored : t := applyStatus idle activeStatus idle.
End Home.

(** ** The realtime channel ([SocketService]) *)

Module Socket.
(** Rooms of the alert server: one per device, one per alert. *)
Inductive Room :=
| DeviceRoom (device_id : string)
| AlertRoom (alert_id : string).

#[global] Instance Room_eq_dec : EqDecision Room.
Proof. solve_decision. Defined.

#[global] Instance Room_countable : Countable Room :=
  inj_countable'
    (fun r => match r with DeviceRoom d => inl d | AlertRoom a => inr a end)
    (fun x => match x with inl d => DeviceRoom d | inr a => AlertRoom a end)
    (fun r => match r with DeviceRoom _ | AlertRoom _ => eq_refl end).

(** The two messages the client emits. *)
Inductive Emit :=
| join_device_room (device_id : string)
| subscribe_alert (alert_id : string).

(** The server puts the emitting connection into the room named. *)
Definition roomOf (m : Emit) : Room :=
  match m with
  | join_device_room d => DeviceRoom d
  | subscribe_alert a => AlertRoom a
  end.

(** Which of the service's own listeners the socket carries: all four as
    installed by [connect], or only the [connect] listener that
    [removeAllListeners] re-adds. *)
Inductive Listeners := AllListeners | ConnectOnly.

(** The socket.io client socket together with what the server holds for
    its current connection. Room membership belongs to the connection:
    it is gone when the connection is. Messages emitted while
    disconnected wait in [sendBuffer] and leave on the next connect. *)
Record Socket := {
  connected : bool;
  sendBuffer : list Emit;
  rooms : gset Room;
  listeners : Listeners;
}.

Record t := {
  socket : option Socket;
  deviceId : option string;
  reconnectAttempts : nat;
}.

Definition maxReconnectAttempts : nat := 10.

Definition initial : t :=
  {| socket := None; deviceId := None; reconnectAttempts := 0 |}.

(** [io(API_BASE, ...)]: a new socket, not yet connected. *)
Definition io : Socket :=
  {| connected := false; sendBuffer := []; rooms := ∅;
     listeners := AllListeners |}.

(** [socket.emit]. *)
Definition emit (m : Emit) (sock : Socket) : Socket :=
  if connected sock then
    {| connected := true; sendBuffer := sendBuffer sock;
       rooms := rooms sock ∪ {[ roomOf m ]}; listeners := listeners sock |}
  else
    {| connected := false; sendBuffer := sendBuffer sock ++ [m];
       rooms := rooms sock; listeners := listeners sock |}.

Definition withSocket (sock : option Socket) (svc : t) : t :=
  {| socket := sock; deviceId := deviceId svc;
     reconnectAttempts := reconnectAttempts svc |}.

Definition setReconnectAttempts (n : nat) (svc : t) : t :=
  {| socket := socket svc; deviceId := deviceId svc;
     reconnectAttempts := n |}.

(** [joinDeviceRoom]: needs a socket and a non-empty device id. *)
Definition joinDeviceRoom (svc : t) : t :=
  match socket svc, deviceId svc with
  | Some sock, Some d =>
      if decide (d = EmptyString) then svc
      else withSocket (Some (emit (join_device_room d) sock)) svc
  | _, _ => svc
  end.

(** [subscribeToAlert]. *)
Definition subscribeToAlert (alertId : string) (svc : t) : t :=
  match socket svc with
  | Some sock => withSocket (Some (emit (subscribe_alert alertId) sock)) svc
  | None => svc
  end.

(** [connect]: nothing to do when already connected for this device;
    otherwise the old socket is dropped and a new one made. *)
Definition connect (d : string) (svc : t) : t :=
  if bool_decide (connected <$> socket svc = Some true)
     && bool_decide (deviceId svc = Some d)
  then svc
  else {| socket := Some io; deviceId := Some d;
          reconnectAttempts := reconnectAttempts svc |}.

(** [disconnect]. *)
Definition disconnect (svc : t) : t := withSocket None svc.

(** [isConnected]. *)
Definition isConnected (svc : t) : bool :=
  match socket svc with
  | Some sock => connected sock
  | None => false
  end.

(** [removeAllListeners]. *)
Definition removeAllListeners (svc : t) : t :=
  match socket svc with
  | Some sock =>
      withSocket (Some {| connected := connected sock;
                          sendBuffer := sendBuffer sock;
                          rooms := rooms sock;
                          listeners := ConnectOnly |}) svc
  | None => svc
  end.

(** *** Transport events *)

(** The connection is (re-)established: the buffer leaves, then the
    [connect] listener runs. *)
Definition onConnect (svc : t) : t :=
  match socket svc with
  | Some sock =>
      let sock' :=
        {| connected := true; sendBuffer := [];
           rooms := rooms sock ∪ list_to_set (roomOf <$> sendBuffer sock);
           listeners := listeners sock |} in
      let svc' := withSocket (Some sock') svc in
      match listeners sock with
      | AllListeners => joinDeviceRoom (setReconnectAttempts 0 svc')
      | ConnectOnly => joinDeviceRoom svc'
      end
  | None => svc
  end.

(** The connection is lost: the server forgets its rooms; the
    [disconnect] listener asks the socket to connect again for the two
    critical reasons, which changes nothing here until [onConnect]. *)
Definition onDisconnect (reason : string) (svc : t) : t :=
  match socket svc with
  | Some sock =>
      withSocket (Some {| connected := false; sendBuffer := sendBuffer sock;
                          rooms := ∅; listeners := listeners sock |}) svc
  | None => svc
  end.

(** [connect_error]. *)
Definition onConnectError (svc : t) : t :=
  match socket svc with
  | Some sock =>
      match listeners sock with
      | AllListeners => setReconnectAttempts (S (reconnectAttempts svc)) svc
      | ConnectOnly => svc
      end
  | None => svc
  end.

(** [reconnect]. *)
Definition onReconnect (svc : t) : t :=
  match socket svc with
  | Some sock =>
      match listeners sock with
      | AllListeners => joinDeviceRoom svc
      | ConnectOnly => svc
      end
  | None => svc
  end.

(** The rooms the device is in. *)
Definition joinedRooms (svc : t) : gset Room :=
  match socket svc with
  | Some sock => rooms sock
  | None => ∅
  end.

(** A disconnect followed by a successful reconnect. *)
Definition dropAndReconnect (reason : string) (svc : t) : t :=
  onReconnect (onConnect (onDisconnect reason svc)).

(** *** A session *)

(** A device that has connected and subscribed to one alert. *)
Definition session : t :=
  subscribeToAlert "alert-7" (onConnect (connect "device-1" initial)).
End Socket.

(** ** The alert view *)

(** Payload of the [alert_location_updated] event; every field may be
    missing. *)
Module LocationUpdated.
Record t := {
  alert_id : option string;
  latitude : option R;
  longitude : option R;
  heading : option R;
  timestamp : option string;
}.
End LocationUpdated.

(** An entry of [locationHistory]. *)
Module HistoryEntry.
Record t := {
  latitude : R;
  longitude : R;
  heading : option R;
  timestamp : option string;
}.
End HistoryEntry.

Module AlertView.
Local Open Scope Z_scope.

(** A number that is there and truthy. *)
Definition truthy (x : option R) : option R :=
  match x with
  | Some v => if JSMath.falsy v then None else Some v
  | None => None
  end.

(** The [alert_location_updated] handler of the view of alert [alertId],
    as far as [locationHistory] goes: an update for this alert with a
    truthy latitude and longitude is appended. *)
Definition onAlertLocationUpdated
    (alertId : string) (data : LocationUpdated.t)
    (locationHistory : list HistoryEntry.t) : list HistoryEntry.t :=
  match truthy (LocationUpdated.latitude data),
        truthy (LocationUpdated.longitude data) with
  | Some lat, Some lon =>
      if decide (LocationUpdated.alert_id data = Some alertId) then
        locationHistory ++ [{|
          HistoryEntry.latitude := lat;
          HistoryEntry.longitude := lon;
          HistoryEntry.heading := LocationUpdated.heading data;
          HistoryEntry.timestamp := LocationUpdated.timestamp data |}]
      else locationHistory
  | _, _ => locationHistory
  end.

(** [latestLoc]: the last entry of the history, or else the position in
    the alert's details. *)
Definition latestLoc
    (locationHistory : list HistoryEntry.t) (detailsLat detailsLon : R)
    : R * R :=
  match last locationHistory with
  | Some e => (HistoryEntry.latitude e, HistoryEntry.longitude e)
  | None => (detailsLat, detailsLon)
  end.

(** What the view shows of the way to the alert. *)
Record Readout := {
  realTimeDistance : option R;
  bearing : R;
  myLocation : option (R * R);
}.

(** [updateDistanceAndBearing]: nothing is updated when one of the four
    numbers is falsy. *)
Definition updateDistanceAndBearing
    (myLat myLon alertLat alertLon : R) (shown : Readout) : Readout :=
  if JSMath.falsy myLat || JSMath.falsy myLon
     || JSMath.falsy alertLat || JSMath.falsy alertLon
  then shown
  else {|
    realTimeDistance :=
      Some (Geodesy.calculateDistance myLat myLon alertLat alertLon);
    bearing := Geodesy.calculateBearing myLat myLon alertLat alertLon;
    myLocation := Some (myLat, myLon) |}.

(** What [formatTimeAgo] shows: "just now", "<n>s ago", "<n>m ago", or
    the clock time of the date (which reads "Invalid Date" for a string
    that is no date). *)
Inductive TimeAgo :=
| JustNow
| SecondsAgo (n : Z)
| MinutesAgo (n : Z)
| ClockTime.

(** [formatTimeAgo isoString]; [date] is [new Date(isoString).getTime()],
    [None] when that is NaN, and [now] the clock, both in ms. *)
Definition formatTimeAgo (isoString : string) (date : option Z) (now : Z)
    : TimeAgo :=
  if decide (isoString = EmptyString) then JustNow
  else
    match date with
    | None => ClockTime
    | Some t =>
        let diffMs := now - t in
        let diffSecs := diffMs / 1000 in
        let diffMins := diffSecs / 60 in
        if diffSecs <? 10 then JustNow
        else if diffSecs <? 60 then SecondsAgo diffSecs
        else if diffMins <? 60 then MinutesAgo diffMins
        else ClockTime
    end.
End AlertView.

(** ** Sound and vibration bursts ([emergencySound]) *)

Module EmergencySound.
Local Open Scope Z_scope.

(** Where a run of [playEmergencySoundAsync] is suspended. *)
Inductive Stage := AwaitInit | AwaitUnload | AwaitCreate.

#[global] Instance Stage_eq_dec : EqDecision Stage.
Proof. solve_decision. Defined.

(** The module's variables, the suspended runs, the armed cleanup
    timeouts (due times in ms), the clock, and two counters of what has
    been asked of the platform. *)
Record t := {
  soundObject : option nat;
  isInitialized : bool;
  isPlaying : bool;
  pending : list Stage;
  timers : list Z;
  clock : Z;
  vibrations : nat;
  sounds : nat;
}.

Definition initial : t := {|
  soundObject := None; isInitialized := false; isPlaying := false;
  pending := []; timers := []; clock := 0; vibrations := 0; sounds := 0 |}.

Definition setPlaying (b : bool) (s : t) : t := {|
  soundObject := soundObject s; isInitialized := isInitialized s;
  isPlaying := b; pending := pending s; timers := timers s;
  clock := clock s; vibrations := vibrations s; sounds := sounds s |}.

Definition setSound (o : option nat) (s : t) : t := {|
  soundObject := o; isInitialized := isInitialized s;
  isPlaying := isPlaying s; pending := pending s; timers := timers s;
  clock := clock s; vibrations := vibrations s; sounds := sounds s |}.

Definition setInitialized (b : bool) (s : t) : t := {|
  soundObject := soundObject s; isInitialized := b;
  isPlaying := isPlaying s; pending := pending s; timers := timers s;
  clock := clock s; vibrations := vibrations s; sounds := sounds s |}.

Definition setPending (p : list Stage) (s : t) : t := {|
  soundObject := soundObject s; isInitialized := isInitialized s;
  isPlaying := isPlaying s; pending := p; timers := timers s;
  clock := clock s; vibrations := vibrations s; sounds := sounds s |}.

Definition suspend (st : Stage) (s : t) : t :=
  setPending (pending s ++ [st]) s.

(** Remove the first run suspended at [st], if there is one. *)
Fixpoint take (st : Stage) (p : list Stage) : option (list Stage) :=
  match p with
  | [] => None
  | x :: p' =>
      if decide (x = st) then Some p'
      else cons x <$> take st p'
  end.

(** [Vibration.vibrate(EMERGENCY_VIBRATION_PATTERN)]. *)
Definition vibrate (s : t) : t := {|
  soundObject := soundObject s; isInitialized := isInitialized s;
  isPlaying := isPlaying s; pending := pending s; timers := timers s;
  clock := clock s; vibrations := S (vibrations s); sounds := sounds s |}.

(** [playEmergencySoundAsync] from "create and play" on: the call of
    [Audio.Sound.createAsync], awaited. *)
Definition createAndPlay (s : t) : t := suspend AwaitCreate s.

(** ... from "unload previous sound" on. *)
Definition unloadPrevious (s : t) : t :=
  match soundObject s with
  | Some _ => suspend AwaitUnload s
  | None => createAndPlay s
  end.

(** [playEmergencySoundAsync] up to its first [await]. *)
Definition playEmergencySoundAsync (s : t) : t :=
  if isPlaying s then s
  else
    let s1 := setPlaying true s in
    if isInitialized s1 then unloadPrevious s1
    else suspend AwaitInit s1.

(** [playAlertBurst]; [native] is [Platform.OS !== 'web']. *)
Definition playAlertBurst (native : bool) (s : t) : t :=
  if native then playEmergencySoundAsync (vibrate s) else s.

(** [await initializeAudio()] returns; [ok] tells whether the audio mode
    was set. *)
Definition initDone (ok : bool) (s : t) : t :=
  match take AwaitInit (pending s) with
  | Some p =>
      let s1 := setPending p s in
      unloadPrevious (if ok then setInitialized true s1 else s1)
  | None => s
  end.

(** [await soundObject.unloadAsync()] returns or throws. *)
Definition unloadDone (s : t) : t :=
  match take AwaitUnload (pending s) with
  | Some p => createAndPlay (setSound None (setPending p s))
  | None => s
  end.

(** [await Audio.Sound.createAsync(...)] returns the sound [Some h], or
    throws ([None]). The cleanup timeout is armed here. *)
Definition createDone (r : option nat) (s : t) : t :=
  match take AwaitCreate (pending s) with
  | Some p =>
      match r with
      | Some h => {|
          soundObject := Some h; isInitialized := isInitialized s;
          isPlaying := isPlaying s; pending := p;
          timers := timers s ++ [clock s + 4000];
          clock := clock s; vibrations := vibrations s;
          sounds := S (sounds s) |}
      | None => setPlaying false (setPending p s)
      end
  | None => s
  end.

(** Time passes: the timeouts that fall due run their cleanup, taken as
    one step: stop and unload the sound if there is one and forget it,
    then clear [isPlaying]. When stopping or unloading throws ([ok] false)
    the sound is not forgotten; [isPlaying] is cleared all the same. *)
Definition advance (ok : bool) (dt : Z) (s : t) : t :=
  let now := clock s + dt in
  let due := filter (fun d => d <= now) (timers s) in
  let rest := filter (fun d => ~ d <= now) (timers s) in
  match due with
  | [] => {|
      soundObject := soundObject s; isInitialized := isInitialized s;
      isPlaying := isPlaying s; pending := pending s; timers := rest;
      clock := now; vibrations := vibrations s; sounds := sounds s |}
  | _ :: _ => {|
      soundObject := if ok then None else soundObject s;
      isInitialized := isInitialized s;
      isPlaying := false; pending := pending s; timers := rest;
      clock := now; vibrations := vibrations s; sounds := sounds s |}
  end.

(** [stopEmergencyAlert]. *)
Definition stopEmergencyAlert (s : t) : t :=
  setSound None (setPlaying false s).

(** The sound side of the state: everything but the vibration counter. *)
Definition soundState (s : t)
  : option nat * bool * bool * list Stage * list Z * Z * nat :=
  (soundObject s, isInitialized s, isPlaying s, pending s, timers s,
   clock s, sounds s).

(** What can happen to the module, one after the other: a call of
    [playAlertBurst], the return of one of the three awaited calls, the
    passing of time, a call of [stopEmergencyAlert]. *)
Inductive Event :=
| Burst
| InitDone (ok : bool)
| UnloadDone
| CreateDone (r : option nat)
| Elapse (ok : bool) (dt : Z)
| Stop.

Definition step (native : bool) (s : t) (e : Event) : t :=
  match e with
  | Burst => playAlertBurst native s
  | InitDone ok => initDone ok s
  | UnloadDone => unloadDone s
  | CreateDone r => createDone r s
  | Elapse ok dt => advance ok dt s
  | Stop => stopEmergencyAlert s
  end.

Definition run (native : bool) (s : t) (es : list Event) : t :=
  foldl (step native) s es.

Definition isStop (e : Event) : bool :=
  match e with Stop => true | _ => false end.

(** *** A burst *)

(** The module after [initializeAudio] at application start. *)
Definition ready : t := setInitialized true initial.

(** One burst requested; its sound is being created. *)
Definition bursting : t := playAlertBurst true ready.
End EmergencySound.

(** * Properties *)

(** ** Geodesy *)

Section GeodesyFacts.
Local Open Scope R_scope.
Import JSMath Geodesy.

Lemma falsy_true x : falsy x = true <-> x = 0.
Proof. unfold falsy. destruct (Req_dec_T x 0); split; congruence. Qed.

Lemma atan2_0_1 : atan2 0 1 = 0.
Proof.
  unfold atan2. destruct (Rlt_dec 0 1) as [_|H]; [|lra].
  replace (0 / 1) with 0 by lra. apply atan_0.
Qed.

(** The guard does not care about the order of the two points. *)
Lemma guard_sym (a b c d : bool) : a || b || c || d = c || d || a || b.
Proof. by destruct a, b, c, d. Qed.

Lemma sin_sqr_swap (u v : R) :
  sin (((u - v) * PI) / 180 / 2) * sin (((u - v) * PI) / 180 / 2)
  = sin (((v - u) * PI) / 180 / 2) * sin (((v - u) * PI) / 180 / 2).
Proof.
  replace (((u - v) * PI) / 180 / 2) with (- (((v - u) * PI) / 180 / 2))
    by lra.
  rewrite sin_neg. ring.
Qed.

Lemma haversine_sym lat1 lon1 lat2 lon2 :
  haversine lat1 lon1 lat2 lon2 = haversine lat2 lon2 lat1 lon1.
Proof.
  unfold haversine. cbv zeta.
  rewrite (sin_sqr_swap lat2 lat1).
  replace (cos (lat1 * PI / 180) * cos (lat2 * PI / 180)
           * sin ((lon2 - lon1) * PI / 180 / 2)
           * sin ((lon2 - lon1) * PI / 180 / 2))
    with (cos (lat2 * PI / 180) * cos (lat1 * PI / 180)
          * sin ((lon1 - lon2) * PI / 180 / 2)
          * sin ((lon1 - lon2) * PI / 180 / 2)); [reflexivity|].
  rewrite !Rmult_assoc, (sin_sqr_swap lon1 lon2). ring.
Qed.

Lemma haversine_same lat lon : haversine lat lon lat lon = 0.
Proof.
  unfold haversine. cbv zeta.
  replace ((lat - lat) * PI / 180 / 2) with 0 by lra.
  replace ((lon - lon) * PI / 180 / 2) with 0 by lra.
  rewrite sin_0.
  replace (0 * 0 + cos (lat * PI / 180) * cos (lat * PI / 180) * 0 * 0)
    with 0 by ring.
  rewrite Rminus_0_r, sqrt_0, sqrt_1, atan2_0_1. ring.
Qed.

(** Read on real numbers, [calculateDistance] is symmetric in its two
    points, and the distance from a point to itself is 0. On the numbers
    of the runtime see [calculateDistance_antipodal_nan]. *)
Lemma calculateDistance_symmetric_and_zero (lat1 lon1 lat2 lon2 : R) :
  calculateDistance lat1 lon1 lat2 lon2 = calculateDistance lat2 lon2 lat1 lon1
  /\ calculateDistance lat1 lon1 lat1 lon1 = 0.
Proof.
  unfold calculateDistance. split.
  - rewrite (guard_sym (falsy lat1) (falsy lon1) (falsy lat2) (falsy lon2)).
    by rewrite haversine_sym.
  - rewrite haversine_same. by destruct (_ || _).
Qed.

(** C10: a zero among the four components makes both helpers answer 0;
    on the equator or the prime meridian that is not the geodesic value. *)
Theorem zero_component_reports_zero (lat1 lon1 lat2 lon2 : R) :
  lat1 = 0 \/ lon1 = 0 \/ lat2 = 0 \/ lon2 = 0 ->
  calculateDistance lat1 lon1 lat2 lon2 = 0
  /\ calculateBearing lat1 lon1 lat2 lon2 = 0.
Proof.
  intros H. unfold calculateDistance, calculateBearing.
  assert (falsy lat1 || falsy lon1 || falsy lat2 || falsy lon2 = true) as ->.
  { destruct H as [H|[H|[H|H]]]; apply falsy_true in H; rewrite H;
      by repeat (rewrite ?orb_true_r, ?orb_true_l). }
  done.
Qed.

Lemma zero_component_reports_zero_witness :
  calculateDistance 0 10 10 10 = 0 /\ calculateBearing 0 10 10 10 = 0.
Proof. apply zero_component_reports_zero. by left. Defined.

Lemma atan2_pos (y x : R) : 0 < y -> 0 <= x -> 0 < atan2 y x.
Proof.
  intros Hy Hx. unfold atan2.
  destruct (Rlt_dec 0 x) as [Hpos|Hnpos].
  - rewrite <- atan_0. apply atan_increasing.
    apply Rdiv_lt_0_compat; assumption.
  - destruct (Rlt_dec x 0); [lra|].
    destruct (Rlt_dec 0 y); [|lra].
    pose proof PI_RGT_0. lra.
Qed.

(** A point on the equator and one ten degrees north of it: the
    haversine value is positive, the reported distance is 0. *)
Lemma equator_distance_lost :
  0 < haversine 0 10 10 10 /\ calculateDistance 0 10 10 10 = 0.
Proof.
  split.
  - unfold haversine. cbv zeta.
    replace ((10 - 10) * PI / 180 / 2) with 0 by lra.
    replace ((10 - 0) * PI / 180 / 2) with (PI / 36) by lra.
    rewrite sin_0.
    assert (0 < sin (PI / 36)) as Hs.
    { pose proof PI_RGT_0. apply sin_gt_0; lra. }
    set (a := sin (PI / 36) * sin (PI / 36) + _).
    assert (0 < a) as Ha by (subst a; nra).
    pose proof (atan2_pos (sqrt a) (sqrt (1 - a))
                  (sqrt_lt_R0 a Ha) (sqrt_pos (1 - a))).
    lra.
  - unfold calculateDistance. by rewrite (proj2 (falsy_true 0) eq_refl).
Qed.

(** [Math.round] on the range of [bearing / 45]. *)
Lemma round_range (x : R) : 0 <= x < 8 -> (0 <= round x <= 8)%Z.
Proof.
  intros [Hlo Hhi]. unfold round.
  destruct (base_Int_part (x + / 2)) as [H1 H2].
  split.
  - apply Z.lt_succ_r, lt_IZR. rewrite succ_IZR. lra.
  - apply Z.lt_succ_r, lt_IZR. rewrite succ_IZR. lra.
Qed.

Lemma round_half (k : Z) : round (IZR k + / 2) = (k + 1)%Z.
Proof.
  unfold round. symmetry. apply Int_part_spec. rewrite plus_IZR. lra.
Qed.

Lemma round_half_away_nonneg (x : R) : 0 <= x -> round_half_away x = round x.
Proof.
  intros Hx. unfold round_half_away, round.
  destruct (Rlt_dec x 0); [lra|reflexivity].
Qed.

Lemma direction_at_defined (n : Z) :
  (0 <= n <= 8)%Z ->
  exists d, direction_at (Z.rem n 8) = Some d /\ d ∈ directions.
Proof.
  intros Hn.
  assert (n = 0 \/ n = 1 \/ n = 2 \/ n = 3 \/ n = 4 \/ n = 5 \/ n = 6
          \/ n = 7 \/ n = 8)%Z as Hc by lia.
  clear Hn. unfold directions.
  repeat (destruct Hc as [->|Hc]); try subst n;
    (eexists; split; [reflexivity|set_solver]).
Qed.

Lemma or_zero_id (bearing : R) :
  (if falsy bearing then 0 else bearing) = bearing.
Proof.
  destruct (falsy bearing) eqn:E; [|reflexivity].
  apply falsy_true in E. by subst.
Qed.

(** C9: on [0, 360) both [getDirectionText]s are total onto the eight
    octants and agree with [round(bearing/45) mod 8] under ties away
    from zero; a bearing on an octant boundary [22.5 + 45 k] goes to the
    next octant, [k + 1 mod 8]. *)
Theorem getDirectionText_octant (bearing : R) :
  0 <= bearing < 360 ->
  (exists d, getDirectionText bearing = Some d /\ d ∈ directions)
  /\ getDirectionText bearing = compassOctant bearing
  /\ getDirectionText_card bearing = compassOctant bearing
  /\ (forall k : Z, (0 <= k < 8)%Z -> bearing = 22.5 + 45 * IZR k ->
        getDirectionText bearing = direction_at ((k + 1) mod 8)
        /\ getDirectionText_card bearing = direction_at ((k + 1) mod 8)).
Proof.
  intros Hb.
  assert (0 <= bearing / 45 < 8) as Hx by (split; lra).
  pose proof (round_range _ Hx) as Hr.
  assert (getDirectionText bearing = getDirectionText_card bearing) as Hsame.
  { unfold getDirectionText, getDirectionText_card. by rewrite or_zero_id. }
  assert (getDirectionText_card bearing = compassOctant bearing) as Hspec.
  { unfold getDirectionText_card, compassOctant. cbv zeta.
    rewrite round_half_away_nonneg by lra.
    rewrite Z.rem_mod_nonneg by lia. reflexivity. }
  split; [|split; [|split]].
  - rewrite Hsame. unfold getDirectionText_card. cbv zeta.
    by apply direction_at_defined.
  - by rewrite Hsame.
  - exact Hspec.
  - intros k Hk Hbk. rewrite Hsame.
    assert (getDirectionText_card bearing = direction_at ((k + 1) mod 8));
      [|by split].
    unfold getDirectionText_card. cbv zeta.
    replace (bearing / 45) with (IZR k + / 2) by lra.
    rewrite round_half, Z.rem_mod_nonneg by lia. reflexivity.
Qed.

(** The boundary bearings as the runtime computes them: each goes to the
    octant above it. *)
Lemma octant_boundaries_binary64 :
  Binary64.getDirectionText <$> Binary64.boundaries
    = Some <$> ["NE"; "E"; "SE"; "S"; "SW"; "W"; "NW"; "N"]%string
  /\ Binary64.getDirectionText_card <$> Binary64.boundaries
    = Some <$> ["NE"; "E"; "SE"; "S"; "SW"; "W"; "NW"; "N"]%string.
Proof. split; vm_compute; reflexivity. Qed.

Lemma getDirectionText_octant_witness :
  getDirectionText 22.5 = Some "NE"%string
  /\ getDirectionText 337.5 = Some "N"%string
  /\ getDirectionText_card 22.5 = Some "NE"%string
  /\ getDirectionText_card 337.5 = Some "N"%string.
Proof.
  assert (0 <= 22.5 < 360) as H1 by lra.
  assert (0 <= 337.5 < 360) as H2 by lra.
  destruct (getDirectionText_octant 22.5 H1) as (_ & _ & _ & Ha).
  destruct (getDirectionText_octant 337.5 H2) as (_ & _ & _ & Hb).
  destruct (Ha 0%Z) as [Ha1 Ha2]; [lia|lra|].
  destruct (Hb 7%Z) as [Hb1 Hb2]; [lia|lra|].
  rewrite Ha1, Ha2, Hb1, Hb2. repeat split; reflexivity.
Defined.
End GeodesyFacts.

(** ** The distance on binary64 numbers *)

Section DistanceFacts.
Import Floats.

(** C8, on the code: in binary64 the haversine term of two antipodal
    points can come out above 1, and [Math.sqrt(1 - a)] is then NaN.
    For (2.5, 90) and (-2.5, -90), with the sine and the cosine
    correctly rounded at the arguments they are given and [Math.atan2]
    answering NaN for a NaN, the distance is NaN, whichever point comes
    first, and the two results are not equal: NaN is equal to nothing. *)
Theorem calculateDistance_antipodal_nan
    (Math_sin Math_cos : float -> float)
    (Math_atan2 : float -> float -> float) :
  Math_sin (-0x1.657184ae74487p-5)%float = (-0x1.65547c4694e11p-5)%float ->
  Math_sin 0x1.657184ae74487p-5%float = 0x1.65547c4694e11p-5%float ->
  Math_sin (-0x1.921fb54442d18p+0)%float = (-1)%float ->
  Math_sin 0x1.921fb54442d18p+0%float = 1%float ->
  Math_cos 0x1.657184ae74487p-5%float = 0x1.ff833f9da45f7p-1%float ->
  Math_cos (-0x1.657184ae74487p-5)%float = 0x1.ff833f9da45f7p-1%float ->
  (forall y, Math_atan2 y nan = nan) ->
  let d := Binary64.calculateDistance Math_sin Math_cos Math_atan2
             2.5 90 (-2.5) (-90) in
  let d' := Binary64.calculateDistance Math_sin Math_cos Math_atan2
              (-2.5) (-90) 2.5 90 in
  PrimFloat.is_nan d = true
  /\ PrimFloat.is_nan d' = true
  /\ PrimFloat.eqb d d' = false.
Proof.
  intros S1 S2 S3 S4 C1 C2 A. cbv zeta.
  assert (Binary64.calculateDistance Math_sin Math_cos Math_atan2
            2.5 90 (-2.5) (-90) = nan) as ->.
  { unfold Binary64.calculateDistance. vm_compute.
    rewrite S1, S3, C1, C2. vm_compute. by rewrite A. }
  assert (Binary64.calculateDistance Math_sin Math_cos Math_atan2
            (-2.5) (-90) 2.5 90 = nan) as ->.
  { unfold Binary64.calculateDistance. vm_compute.
    rewrite S2, S4, C1, C2. vm_compute. by rewrite A. }
  done.
Qed.

Lemma calculateDistance_antipodal_nan_witness :
  let d := Binary64.calculateDistance
             Binary64.sin_seen Binary64.cos_seen Binary64.atan2_seen
             2.5 90 (-2.5) (-90) in
  let d' := Binary64.calculateDistance
              Binary64.sin_seen Binary64.cos_seen Binary64.atan2_seen
              (-2.5) (-90) 2.5 90 in
  PrimFloat.is_nan d = true
  /\ PrimFloat.is_nan d' = true
  /\ PrimFloat.eqb d d' = false.
Proof.
  apply (calculateDistance_antipodal_nan
           Binary64.sin_seen Binary64.cos_seen Binary64.atan2_seen);
    reflexivity.
Defined.
End DistanceFacts.

(** ** The alert inbox of the home screen *)

Section InboxFacts.
Import Home.

(** Whatever is shown, the handler shows the alert just received. *)
Lemma onAlertReceived_surfaces (data : AlertReceived.t) (s : Home.t) :
  Alert.alert_id <$> incomingAlert (onAlertReceived data s)
  = Some (AlertReceived.alert_id data).
Proof. reflexivity. Qed.

(** C2, on the code: with "alert-far" on the banner, the arrival of the
    closer "alert-near" puts "alert-near" on the banner. *)
Theorem onAlertReceived_replaces_surfaced :
  let s := onAlertReceived farAlert Home.initial in
  Alert.alert_id <$> incomingAlert s = Some "alert-far"%string
  /\ Alert.alert_id <$> incomingAlert (onAlertReceived nearAlert s)
     = Some "alert-near"%string.
Proof. split; reflexivity. Qed.

(** A repeat of the alert on the banner keeps its id there. *)
Lemma onAlertReceived_repeat (data : AlertReceived.t) (s : Home.t) :
  incomingAlert (onAlertReceived data (onAlertReceived data s))
  = incomingAlert (onAlertReceived data s).
Proof. reflexivity. Qed.

(** The polling path does keep the banner: a fetched list changes it
    only when the render it runs in shows none. *)
Lemma onNearbyAlerts_keeps_surfaced (s : Home.t) (alerts : list Alert.t) :
  is_Some (incomingAlert s) ->
  incomingAlert (onNearbyAlerts s alerts s) = incomingAlert s.
Proof.
  intros [a Ha]. unfold onNearbyAlerts. rewrite Ha.
  by destruct alerts, (AlertStore.myActiveAlert (store s)).
Qed.

(** Dismissing clears the banner, and the same alert received again is
    back on it. *)
Lemma dismiss_then_resurface (data : AlertReceived.t) (s : Home.t) :
  incomingAlert (handleDismissAlert (onAlertReceived data s)) = None
  /\ incomingAlert
       (onAlertReceived data (handleDismissAlert (onAlertReceived data s)))
     = incomingAlert (onAlertReceived data s).
Proof. split; reflexivity. Qed.
End InboxFacts.

(** ** The lifecycle of the device's own alert *)

Section LifecycleFacts.
Local Open Scope Z_scope.
Import Home.

Lemma setIsProcessing_back (s : Home.t) :
  isProcessing s = false -> setIsProcessing false (setIsProcessing true s) = s.
Proof. destruct s; simpl; by intros ->. Qed.

(** C3: a press is refused, with the state as it was, while an alert is
    active, while another press is being processed, during the cooldown
    (reported as such when location permission is held), and when no
    location is to be had; from the idle state, with a location and an
    accepted request, the alert becomes active. *)
Theorem handleEmergencyPress_trigger (env : PressEnv) (s : Home.t) :
  (Active s \/ isProcessing s = true ->
     handleEmergencyPress env s = (Ignored, s)
     /\ errorOf Ignored = Some PreconditionFailed)
  /\ (CoolingDown s -> hasPermission env = true ->
        snd (handleEmergencyPress env s) = s
        /\ errorOf (fst (handleEmergencyPress env s)) = Some PreconditionFailed)
  /\ (hasPermission env = false \/ getCurrentLocation env = None ->
        snd (handleEmergencyPress env s) = s
        /\ (Idle s -> isProcessing s = false ->
              errorOf (fst (handleEmergencyPress env s))
              = Some LocationUnavailable))
  /\ (forall location id,
        Idle s -> isProcessing s = false -> hasPermission env = true ->
        getCurrentLocation env = Some location ->
        triggerAlert env = Some id ->
        fst (handleEmergencyPress env s) = AlertSent id
        /\ Active (snd (handleEmergencyPress env s))
        /\ AlertStore.myActiveAlert (store (snd (handleEmergencyPress env s)))
           = Some {| MyAlert.alert_id := id;
                     MyAlert.latitude := Location.latitude location;
                     MyAlert.longitude := Location.longitude location |}
        /\ alertStartTime (snd (handleEmergencyPress env s)) = Some (now env)).
Proof.
  split; [|split; [|split]].
  - intros H. split; [|reflexivity]. unfold handleEmergencyPress.
    destruct (isProcessing s) eqn:Ep; [reflexivity|].
    destruct H as [H|H]; [|done].
    by rewrite (bool_decide_eq_true_2 _ H).
  - unfold CoolingDown. intros Hc Hp. unfold handleEmergencyPress.
    destruct (isProcessing s); [done|].
    case_bool_decide; [done|].
    by rewrite Hp, Hc.
  - intros Hloc. unfold handleEmergencyPress.
    destruct (isProcessing s) eqn:Ep.
    { split; [done|]. by intros _ ?. }
    case_bool_decide as Ha.
    { split; [done|]. intros (Hn & _ & _) _.
      rewrite Hn in Ha. by destruct Ha. }
    destruct (hasPermission env) eqn:Hp; simpl.
    2:{ split; [done|]. by intros _ _. }
    destruct Hloc as [?|Hloc]; [done|].
    destruct (AlertStore.canTrigger (store s)) eqn:Hc; simpl.
    2:{ split; [done|]. intros (_ & ? & _) _. congruence. }
    rewrite Hloc. simpl. split; [by apply setIsProcessing_back|done].
  - intros location id (Hn & Hc & _) Ep Hp Hloc Hreq.
    unfold handleEmergencyPress. rewrite Ep.
    rewrite bool_decide_eq_false_2 by (rewrite Hn; by intros [? ?]).
    rewrite Hp, Hc, Hloc, Hreq. simpl.
    repeat split. unfold Active. simpl. by eexists.
Qed.

(** *** The [alert_ended] handler *)

Lemma onAlertEnded_other (seen s : Home.t) (data : AlertEnded.t) :
  MyAlert.alert_id <$> AlertStore.myActiveAlert (store seen)
    <> Some (AlertEnded.alert_id data) ->
  ownAlertState (onAlertEnded seen data s) = ownAlertState s.
Proof.
  intros Hne. unfold onAlertEnded.
  destruct (decide (MyAlert.alert_id <$> _ = _)) as [He|_]; [done|].
  by case_decide.
Qed.

Lemma onAlertEnded_match (seen s : Home.t) (data : AlertEnded.t) :
  MyAlert.alert_id <$> AlertStore.myActiveAlert (store seen)
    = Some (AlertEnded.alert_id data) ->
  Idle (onAlertEnded seen data s).
Proof.
  intros He. unfold onAlertEnded.
  destruct (decide (MyAlert.alert_id <$> _ = _)) as [_|Hne]; [|done].
  by case_decide.
Qed.

(** C4, on the code: the handler is made by an effect that depends on
    [deviceId] and [expoPushToken] only, and compares the ended id with
    the alert of the render it was made in. Made in a render without an
    alert of one's own, as it is before the trigger, it leaves the
    device's own alert state as it is when the active alert is ended:
    the alert stays active, the machine does not get to idle. *)
Theorem onAlertEnded_own_alert_kept
    (seen s : Home.t) (data : AlertEnded.t) :
  AlertStore.myActiveAlert (store seen) = None ->
  MyAlert.alert_id <$> AlertStore.myActiveAlert (store s)
    = Some (AlertEnded.alert_id data) ->
  ownAlertState (onAlertEnded seen data s) = ownAlertState s
  /\ Active (onAlertEnded seen data s)
  /\ ~ Idle (onAlertEnded seen data s).
Proof.
  intros Hseen Hs.
  assert (ownAlertState (onAlertEnded seen data s) = ownAlertState s) as Ho.
  { apply onAlertEnded_other. by rewrite Hseen. }
  assert (AlertStore.myActiveAlert (store (onAlertEnded seen data s))
          = AlertStore.myActiveAlert (store s)) as Hm.
  { unfold ownAlertState in Ho. by simplify_eq. }
  destruct (AlertStore.myActiveAlert (store s)) as [a|] eqn:Ea; [|done].
  split; [exact Ho|]. split.
  - unfold Active. rewrite Hm. by eexists.
  - intros (Hn & _). by rewrite Hn in Hm.
Qed.

Lemma onAlertEnded_own_alert_kept_witness :
  ownAlertState (onAlertEnded idle (ended "alert-1") triggered)
    = ownAlertState triggered
  /\ Active (onAlertEnded idle (ended "alert-1") triggered)
  /\ ~ Idle (onAlertEnded idle (ended "alert-1") triggered).
Proof.
  apply (onAlertEnded_own_alert_kept idle triggered (ended "alert-1"));
    reflexivity.
Defined.

(** *** The two timers *)

Lemma cooldownTick_store (s : Home.t) :
  AlertStore.myActiveAlert (store (cooldownTick s))
    = AlertStore.myActiveAlert (store s)
  /\ alertStartTime (cooldownTick s) = alertStartTime s
  /\ alertTimeRemaining (cooldownTick s) = alertTimeRemaining s.
Proof.
  unfold cooldownTick.
  destruct (_ <=? 0); [done|]. by destruct (_ <=? 1).
Qed.

(** One firing takes one second off, stops at 0, and releases the
    trigger on reaching 0. *)
Lemma cooldownTick_spec (s : Home.t) :
  let c := AlertStore.cooldownRemaining (store s) in
  AlertStore.cooldownRemaining (store (cooldownTick s))
    = (if c <=? 0 then c else c - 1)
  /\ AlertStore.canTrigger (store (cooldownTick s))
     = (if (0 <? c) && (c <=? 1) then true
        else AlertStore.canTrigger (store s)).
Proof.
  unfold cooldownTick. cbv zeta.
  destruct (Z.leb_spec (AlertStore.cooldownRemaining (store s)) 0) as [H0|H0].
  - rewrite (proj2 (Z.ltb_ge _ _)) by lia. done.
  - rewrite (proj2 (Z.ltb_lt _ _)) by lia.
    destruct (Z.leb_spec (AlertStore.cooldownRemaining (store s)) 1);
      simpl; split; try reflexivity; lia.
Qed.

(** The countdown on a running alert: the remaining time is
    [max 0 (1200 - elapsed)]; short of 0 nothing else changes, at 0 the
    alert, its start time and the trigger state are cleared. *)
Lemma alertCountdownTick_running (now t0 : Z) (a : MyAlert.t) (s : Home.t) :
  AlertStore.myActiveAlert (store s) = Some a ->
  alertStartTime s = Some t0 -> t0 <> 0 ->
  let remaining := Z.max 0 (ALERT_DURATION - (now - t0) / 1000) in
  alertTimeRemaining (alertCountdownTick now s) = remaining
  /\ (0 < remaining ->
        alertCountdownTick now s = setAlertTimeRemaining remaining s)
  /\ (remaining = 0 ->
        AlertStore.myActiveAlert (store (alertCountdownTick now s)) = None
        /\ alertStartTime (alertCountdownTick now s) = None
        /\ Idle (alertCountdownTick now s)).
Proof.
  intros Ha Ht Hnz. cbv zeta. unfold alertCountdownTick, startTime.
  rewrite Ha, Ht. rewrite (proj2 (Z.eqb_neq t0 0) Hnz).
  set (remaining := Z.max 0 (ALERT_DURATION - (now - t0) / 1000)).
  destruct (Z.leb_spec remaining 0) as [H0|H0].
  - split; [simpl; subst remaining; lia|]. split; [lia|].
    intros _. by repeat split.
  - split; [reflexivity|]. split; [done|lia].
Qed.

(** Without a start time the countdown does not touch the alert. *)
Lemma alertCountdownTick_no_start (now : Z) (s : Home.t) :
  startTime s = None ->
  alertCountdownTick now s = setAlertTimeRemaining 0 s.
Proof.
  intros Hs. unfold alertCountdownTick. rewrite Hs.
  by destruct (AlertStore.myActiveAlert (store s)).
Qed.

Lemma elapsed_seconds (t0 j K : Z) :
  0 <= j < 1000 -> (t0 + 1000 * K + j - t0) / 1000 = K.
Proof.
  intros Hj. replace (t0 + 1000 * K + j - t0) with (K * 1000 + j) by lia.
  rewrite Z.div_add_l by lia. rewrite Z.div_small by lia. lia.
Qed.

(** When the countdown runs out the store is reset and the address
    forgotten. *)
Lemma alertCountdownTick_expired (now t0 : Z) (a : MyAlert.t) (s : Home.t) :
  AlertStore.myActiveAlert (store s) = Some a ->
  alertStartTime s = Some t0 -> t0 <> 0 ->
  ALERT_DURATION - (now - t0) / 1000 <= 0 ->
  store (alertCountdownTick now s) = AlertStore.reset (store s)
  /\ currentAddress (alertCountdownTick now s) = EmptyString.
Proof.
  intros Ha Ht Hnz Hr. unfold alertCountdownTick, startTime.
  rewrite Ha, Ht. rewrite (proj2 (Z.eqb_neq t0 0) Hnz).
  rewrite (proj2 (Z.leb_le _ _)) by lia. done.
Qed.

(** Without a start time a second of the two timers leaves the alert and
    the missing start time as they are. *)
Lemma tickAt_no_start (clock : Z) (s : Home.t) :
  alertStartTime s = None ->
  AlertStore.myActiveAlert (store (tickAt clock s))
    = AlertStore.myActiveAlert (store s)
  /\ alertStartTime (tickAt clock s) = None.
Proof.
  intros Hs. unfold tickAt.
  destruct (cooldownTick_store s) as (C1 & C2 & _).
  rewrite alertCountdownTick_no_start
    by (unfold startTime; by rewrite C2, Hs).
  simpl. by rewrite C1, C2.
Qed.

Lemma secondsPass_no_start (j t0 : Z) (k : nat) (s : Home.t) :
  alertStartTime s = None ->
  AlertStore.myActiveAlert (store (secondsPass j t0 k s))
    = AlertStore.myActiveAlert (store s)
  /\ alertStartTime (secondsPass j t0 k s) = None.
Proof.
  intros Hs. induction k as [|k [IH1 IH2]]; [done|].
  cbn [secondsPass].
  destruct (tickAt_no_start (t0 + 1000 * Z.of_nat (S k) + j) _ IH2)
    as [T1 T2].
  split; [by rewrite T1|exact T2].
Qed.

(** The state of a triggered alert, second by second, for as long as the
    countdown has not run out. *)
Lemma secondsPass_running (j t0 : Z) (a : MyAlert.t) (s : Home.t) (k : nat) :
  AlertStore.myActiveAlert (store s) = Some a ->
  alertStartTime s = Some t0 ->
  AlertStore.canTrigger (store s) = false ->
  AlertStore.cooldownRemaining (store s) = 60 ->
  0 <= j < 1000 -> (k < 1200)%nat ->
  let sk := secondsPass j t0 k s in
  AlertStore.myActiveAlert (store sk) = Some a
  /\ alertStartTime sk = Some t0
  /\ AlertStore.cooldownRemaining (store sk) = Z.max 0 (60 - Z.of_nat k)
  /\ AlertStore.canTrigger (store sk) = bool_decide (60 <= Z.of_nat k)
  /\ (t0 <> 0 -> (1 <= k)%nat ->
        alertTimeRemaining sk = ALERT_DURATION - Z.of_nat k).
Proof.
  intros Ha Ht Hc Hr Hj. cbv zeta. induction k as [|k IH]; intros Hk.
  - simpl. rewrite Ha, Ht, Hc, Hr. repeat split; try done. lia.
  - destruct IH as (I1 & I2 & I3 & I4 & I5); [lia|].
    cbn [secondsPass]. unfold tickAt.
    set (sk := secondsPass j t0 k s) in *.
    destruct (cooldownTick_store sk) as (C1 & C2 & C3).
    destruct (cooldownTick_spec sk) as (C4 & C5).
    rewrite I3 in C4, C5. rewrite I4 in C5.
    set (u := cooldownTick sk) in *.
    assert (AlertStore.cooldownRemaining (store u)
            = Z.max 0 (60 - Z.of_nat (S k))) as U3.
    { rewrite C4. destruct (Z.leb_spec (Z.max 0 (60 - Z.of_nat k)) 0); lia. }
    assert (AlertStore.canTrigger (store u)
            = bool_decide (60 <= Z.of_nat (S k))) as U4.
    { rewrite C5.
      destruct (Z.ltb_spec 0 (Z.max 0 (60 - Z.of_nat k)));
        destruct (Z.leb_spec (Z.max 0 (60 - Z.of_nat k)) 1); simpl;
        repeat case_bool_decide; try done; lia. }
    destruct (decide (t0 = 0)) as [Hz|Hnz].
    + rewrite alertCountdownTick_no_start
        by (unfold startTime; rewrite C2, I2, Hz; reflexivity).
      simpl. rewrite C1, C2, I1, I2. by repeat split.
    + destruct (alertCountdownTick_running
                  (t0 + 1000 * Z.of_nat (S k) + j) t0 a u)
        as (R1 & R2 & _); [by rewrite C1|by rewrite C2|done|].
      rewrite elapsed_seconds in R1, R2 by done.
      unfold ALERT_DURATION in *.
      rewrite R2 by lia. simpl.
      rewrite C1, C2, I1, I2. repeat split; try done. lia.
Qed.

(** The tick of second 1200 ends the alert and resets the store. *)
Lemma secondsPass_expires (j t0 : Z) (a : MyAlert.t) (s : Home.t) (k : nat) :
  AlertStore.myActiveAlert (store s) = Some a ->
  alertStartTime s = Some t0 ->
  AlertStore.canTrigger (store s) = false ->
  AlertStore.cooldownRemaining (store s) = 60 ->
  0 <= j < 1000 -> t0 <> 0 -> Z.of_nat k = 1199 ->
  let s' := secondsPass j t0 (S k) s in
  AlertStore.myActiveAlert (store s') = None
  /\ alertStartTime s' = None
  /\ alertTimeRemaining s' = 0
  /\ Idle s'
  /\ AlertStore.nearbyAlerts (store s') = []
  /\ AlertStore.selectedAlert (store s') = None
  /\ currentAddress s' = EmptyString.
Proof.
  intros Ha Ht Hc Hr Hj Hnz Hk. cbv zeta.
  destruct (secondsPass_running j t0 a s k Ha Ht Hc Hr Hj)
    as (I1 & I2 & _); [lia|].
  cbn [secondsPass]. unfold tickAt.
  set (sk := secondsPass j t0 k s) in *.
  destruct (cooldownTick_store sk) as (C1 & C2 & _).
  destruct (alertCountdownTick_running
              (t0 + 1000 * Z.of_nat (S k) + j) t0 a (cooldownTick sk))
    as (R1 & _ & R3); [by rewrite C1|by rewrite C2|done|].
  destruct (alertCountdownTick_expired
              (t0 + 1000 * Z.of_nat (S k) + j) t0 a (cooldownTick sk))
    as (X1 & X2); [by rewrite C1|by rewrite C2|done| |].
  { rewrite elapsed_seconds by done. unfold ALERT_DURATION. lia. }
  rewrite elapsed_seconds in R1, R3 by done.
  unfold ALERT_DURATION in *.
  destruct R3 as (E1 & E2 & E3); [lia|].
  split; [exact E1|]. split; [exact E2|]. split; [rewrite R1; lia|].
  split; [exact E3|]. rewrite X1. by repeat split.
Qed.

(** The state a successful press leaves behind. *)
Lemma handleEmergencyPress_sent (env : PressEnv) (s : Home.t) (id : string) :
  fst (handleEmergencyPress env s) = AlertSent id ->
  let s0 := snd (handleEmergencyPress env s) in
  (exists a, AlertStore.myActiveAlert (store s0) = Some a)
  /\ alertStartTime s0 = Some (now env)
  /\ AlertStore.canTrigger (store s0) = false
  /\ AlertStore.cooldownRemaining (store s0) = 60.
Proof.
  unfold handleEmergencyPress.
  destruct (isProcessing s); [done|].
  case_bool_decide; [done|].
  destruct (negb (hasPermission env)); [done|].
  destruct (negb (AlertStore.canTrigger (store s))); [done|].
  destruct (getCurrentLocation env); [|done].
  destruct (triggerAlert env); [|done].
  intros _. simpl. repeat split; try done. by eexists.
Qed.

(** C5: a successful press starts a cooldown of 60 with the trigger
    held; each second takes one off, never below 0; the trigger is held
    exactly while the cooldown is positive; and all the while the alert
    itself stays active, its own countdown running alongside. *)
Theorem cooldown_after_trigger
    (env : PressEnv) (s : Home.t) (id : string) (j : Z) (k : nat) :
  fst (handleEmergencyPress env s) = AlertSent id ->
  0 <= j < 1000 -> (k < 1200)%nat ->
  let s0 := snd (handleEmergencyPress env s) in
  let sk := secondsPass j (now env) k s0 in
  (AlertStore.canTrigger (store s0) = false
   /\ AlertStore.cooldownRemaining (store s0) = 60)
  /\ AlertStore.cooldownRemaining (store sk) = Z.max 0 (60 - Z.of_nat k)
  /\ 0 <= AlertStore.cooldownRemaining (store sk)
  /\ AlertStore.canTrigger (store sk)
     = bool_decide (AlertStore.cooldownRemaining (store sk) = 0)
  /\ Active sk.
Proof.
  intros Hsent Hj Hk. cbv zeta.
  destruct (handleEmergencyPress_sent env s id Hsent)
    as ([a Ha] & Ht & Hc & Hr).
  destruct (secondsPass_running j (now env) a _ k Ha Ht Hc Hr Hj Hk)
    as (I1 & _ & I3 & I4 & _).
  split; [done|]. rewrite I3, I4.
  split; [done|]. split; [lia|]. split.
  - repeat case_bool_decide; try done; lia.
  - unfold Active. rewrite I1. by eexists.
Qed.

(** C6, on the code: an alert taken over from the device status is
    active without a recorded start time; the countdown does not run for
    it, and with both timers firing every second it is still active
    after 1199, 1200 and 1201 seconds, and after an hour. *)
Lemma restored_alert_outlives_duration :
  Active restored
  /\ alertStartTime restored = None
  /\ Active (secondsPass 250 (now goodPress) 1199 restored)
  /\ Active (secondsPass 250 (now goodPress) 1200 restored)
  /\ Active (secondsPass 250 (now goodPress) 1201 restored)
  /\ Active (secondsPass 250 (now goodPress) 3600 restored).
Proof.
  assert (forall k, Active (secondsPass 250 (now goodPress) k restored)) as H.
  { intros k. unfold Active.
    destruct (secondsPass_no_start 250 (now goodPress) k restored) as [H _];
      [reflexivity|].
    rewrite H. by eexists. }
  split; [by eexists|]. split; [reflexivity|].
  repeat split; apply H.
Qed.

(** C6, for an alert triggered on this screen: after the successful
    press each tick shows [max 0 (1200 - elapsed seconds)]; with the
    timers firing every second the alert is active through second 1199,
    and the tick of second 1200 clears the alert and its start time and
    resets the store: the trigger is free, no cooldown is left, the
    nearby list and the selected alert are gone, whatever they were
    before the press, and so is the address. *)
Theorem alert_auto_expiry
    (env : PressEnv) (s : Home.t) (id : string) (j : Z) :
  fst (handleEmergencyPress env s) = AlertSent id ->
  now env <> 0 -> 0 <= j < 1000 ->
  let s0 := snd (handleEmergencyPress env s) in
  (forall clock : Z,
     alertTimeRemaining (alertCountdownTick clock s0)
     = Z.max 0 (1200 - (clock - now env) / 1000))
  /\ (forall k : nat, (1 <= k < 1200)%nat ->
        Active (secondsPass j (now env) k s0)
        /\ alertStartTime (secondsPass j (now env) k s0) = Some (now env)
        /\ alertTimeRemaining (secondsPass j (now env) k s0)
           = 1200 - Z.of_nat k)
  /\ (let s1200 := secondsPass j (now env) 1200 s0 in
      AlertStore.myActiveAlert (store s1200) = None
      /\ alertStartTime s1200 = None
      /\ alertTimeRemaining s1200 = 0
      /\ Idle s1200
      /\ AlertStore.nearbyAlerts (store s1200) = []
      /\ AlertStore.selectedAlert (store s1200) = None
      /\ currentAddress s1200 = EmptyString).
Proof.
  intros Hsent Hnz Hj. cbv zeta.
  destruct (handleEmergencyPress_sent env s id Hsent)
    as ([a Ha] & Ht & Hc & Hr).
  set (s0 := snd (handleEmergencyPress env s)) in *.
  split; [|split].
  - intros clock.
    by destruct (alertCountdownTick_running clock (now env) a s0 Ha Ht Hnz).
  - intros k [Hk1 Hk2].
    destruct (secondsPass_running j (now env) a s0 k Ha Ht Hc Hr Hj Hk2)
      as (I1 & I2 & _ & _ & I5).
    split; [unfold Active; rewrite I1; by eexists|].
    split; [exact I2|by apply I5].
  - apply (secondsPass_expires j (now env) a s0 1199%nat); try done.
Qed.

Lemma cooldown_after_trigger_witness :
  let sk := secondsPass 250 (now goodPress) 30 triggered in
  (AlertStore.canTrigger (store triggered) = false
   /\ AlertStore.cooldownRemaining (store triggered) = 60)
  /\ AlertStore.cooldownRemaining (store sk) = Z.max 0 (60 - Z.of_nat 30)
  /\ 0 <= AlertStore.cooldownRemaining (store sk)
  /\ AlertStore.canTrigger (store sk)
     = bool_decide (AlertStore.cooldownRemaining (store sk) = 0)
  /\ Active sk.
Proof.
  apply (cooldown_after_trigger goodPress idle "alert-1" 250 30);
    [reflexivity|lia|lia].
Defined.

Lemma alert_auto_expiry_witness :
  let s0 := snd (handleEmergencyPress goodPress watching) in
  let s1200 := secondsPass 250 (now goodPress) 1200 s0 in
  AlertStore.nearbyAlerts (store s0) = [farListed]
  /\ AlertStore.myActiveAlert (store s1200) = None
  /\ alertStartTime s1200 = None
  /\ alertTimeRemaining s1200 = 0
  /\ Idle s1200
  /\ AlertStore.nearbyAlerts (store s1200) = []
  /\ AlertStore.selectedAlert (store s1200) = None
  /\ currentAddress s1200 = EmptyString.
Proof.
  split; [reflexivity|].
  apply (alert_auto_expiry goodPress watching "alert-1" 250);
    [reflexivity|discriminate|lia].
Defined.

Lemma handleEmergencyPress_trigger_witness :
  handleEmergencyPress goodPress triggered = (Ignored, triggered)
  /\ (snd (handleEmergencyPress goodPress cooling) = cooling
      /\ errorOf (fst (handleEmergencyPress goodPress cooling))
         = Some PreconditionFailed)
  /\ errorOf (fst (handleEmergencyPress noPermission idle))
     = Some LocationUnavailable
  /\ (fst (handleEmergencyPress goodPress idle) = AlertSent "alert-1"
      /\ Active triggered).
Proof.
  assert (Idle idle) as Hidle by (repeat split).
  assert (Active triggered) as Hact by (by eexists).
  split; [|split; [|split]].
  - apply (handleEmergencyPress_trigger goodPress triggered). by left.
  - by apply (handleEmergencyPress_trigger goodPress cooling).
  - apply (handleEmergencyPress_trigger noPermission idle);
      [by left|exact Hidle|reflexivity].
  - destruct (handleEmergencyPress_trigger goodPress idle)
      as (_ & _ & _ & H).
    destruct (H abuja "alert-1"%string Hidle) as (H1 & H2 & _);
      try reflexivity.
    split; [exact H1|exact H2].
Defined.
End LifecycleFacts.

(** ** The realtime channel *)

Section SocketFacts.
Import Socket.

Lemma joinedRooms_subscribed (svc : Socket.t) (ids : list string) :
  isConnected svc = true ->
  isConnected (foldr subscribeToAlert svc ids) = true
  /\ deviceId (foldr subscribeToAlert svc ids) = deviceId svc
  /\ joinedRooms (foldr subscribeToAlert svc ids)
     = joinedRooms svc ∪ list_to_set (AlertRoom <$> ids).
Proof.
  intros Hc. induction ids as [|a ids (IH1 & IH2 & IH3)]; simpl.
  - split; [done|]. split; [done|]. set_solver.
  - revert IH1 IH2 IH3. unfold subscribeToAlert, isConnected, joinedRooms.
    destruct (socket (foldr _ svc ids)) as [sock|]; [|done].
    intros IH1 IH2 IH3. unfold emit. rewrite IH1. simpl.
    split; [done|]. split; [done|]. rewrite IH3. set_solver.
Qed.

(** After a drop and a reconnect a connected device is in its device
    room and in no other. *)
Lemma dropAndReconnect_rooms (reason d : string) (svc : Socket.t) :
  isConnected svc = true -> (sendBuffer <$> socket svc) = Some [] ->
  deviceId svc = Some d -> d <> EmptyString ->
  joinedRooms (dropAndReconnect reason svc) = {[ DeviceRoom d ]}.
Proof.
  unfold isConnected, dropAndReconnect, onReconnect, onConnect,
    onDisconnect, joinDeviceRoom, joinedRooms.
  destruct svc as [[sock|] dev n]; simpl; [|done].
  intros Hc [= Hb] -> Hd. rewrite Hb.
  destruct (listeners sock); simpl; rewrite !decide_False by done; simpl;
    rewrite ?decide_False by done; simpl; set_solver.
Qed.

(** For any alerts subscribed to while connected: they are joined
    before the drop, and only the device room is joined after the
    reconnect. *)
Lemma reconnect_rejoins_device_room_only
    (reason d : string) (ids : list string) :
  d <> EmptyString ->
  let svc :=
    foldr subscribeToAlert (onConnect (connect d Socket.initial)) ids in
  joinedRooms svc = {[ DeviceRoom d ]} ∪ list_to_set (AlertRoom <$> ids)
  /\ joinedRooms (dropAndReconnect reason svc) = {[ DeviceRoom d ]}.
Proof.
  intros Hd. cbv zeta.
  set (svc0 := onConnect (connect d Socket.initial)).
  assert (isConnected svc0 = true /\ deviceId svc0 = Some d
          /\ joinedRooms svc0 = {[ DeviceRoom d ]}) as (H1 & H2 & H3).
  { subst svc0. unfold connect, onConnect, joinDeviceRoom, isConnected,
      joinedRooms. simpl. rewrite decide_False by done. simpl.
    split; [done|]. split; [done|]. set_solver. }
  destruct (joinedRooms_subscribed svc0 ids H1) as (S1 & S2 & S3).
  split; [by rewrite S3, H3|].
  apply dropAndReconnect_rooms; try done; [|by rewrite S2].
  clear S1 S2 S3. induction ids as [|a ids IH]; simpl.
  - subst svc0. unfold connect, onConnect, joinDeviceRoom. simpl.
    by rewrite decide_False by done.
  - pose proof (joinedRooms_subscribed svc0 ids H1) as (S1 & _).
    revert IH S1. unfold subscribeToAlert, isConnected.
    destruct (socket (foldr _ svc0 ids)) as [sock|]; [|done].
    simpl. intros [= IH] S1. unfold emit. rewrite S1. simpl. by rewrite IH.
Qed.

(** C1, on the code: a device in its device room and in the room of
    "alert-7" is, after a drop and a reconnect, in its device room
    only. *)
Theorem reconnect_loses_alert_rooms :
  joinedRooms session = {[ DeviceRoom "device-1"; AlertRoom "alert-7" ]}
  /\ joinedRooms (dropAndReconnect "transport close" session)
     = {[ DeviceRoom "device-1" ]}
  /\ joinedRooms (dropAndReconnect "transport close" session)
     <> joinedRooms session.
Proof.
  destruct (reconnect_rejoins_device_room_only
              "transport close" "device-1" ["alert-7"%string])
    as (H1 & H2); [done|].
  cbv zeta in H1, H2. change (foldr _ _ _) with session in H1, H2.
  split; [rewrite H1; set_solver|]. split; [exact H2|].
  rewrite H1, H2. intros Heq.
  assert (AlertRoom "alert-7" ∈ ({[ DeviceRoom "device-1" ]} : gset Room))
    as Hin by (rewrite Heq; set_solver).
  set_solver.
Qed.
End SocketFacts.

(** ** Sound and vibration bursts *)

Section SoundFacts.
Local Open Scope Z_scope.
Import EmergencySound.


(** Without an armed timeout the passing of time changes nothing but
    the clock. *)
Lemma advance_no_timer (ok : bool) (dt : Z) (s : EmergencySound.t) :
  timers s = [] ->
  soundState (advance ok dt s)
  = (soundObject s, isInitialized s, isPlaying s, pending s, [],
     clock s + dt, sounds s).
Proof. intros Ht. unfold advance, soundState. by rewrite Ht. Qed.



(** As long as [stopEmergencyAlert] is not called, one step keeps at
    most one thing under way, a run of the sound player or a cleanup
    timeout, and exactly one while [isPlaying] is set. *)
Lemma step_one_run (native : bool) (s : EmergencySound.t) (e : Event) :
  isStop e = false ->
  (length (pending s) + length (timers s) = if isPlaying s then 1 else 0)%nat ->
  (length (pending (step native s e)) + length (timers (step native s e))
   = if isPlaying (step native s e) then 1 else 0)%nat.
Proof.
  intros He Hs.
  destruct s as [so ini pl pe ti cl vi sn]. simpl in Hs.
  assert (pl = false /\ pe = [] /\ ti = []
          \/ pl = true /\ (exists x, pe = [x]) /\ ti = []
          \/ pl = true /\ pe = [] /\ exists d, ti = [d]) as Hc.
  { destruct pl, pe as [|x [|? ?]], ti as [|d [|? ?]]; simpl in Hs;
      try lia; eauto 10. }
  clear Hs.
  destruct Hc as [(-> & -> & ->)|[(-> & [x ->] & ->)|(-> & -> & [d ->])]].
  - destruct e, native; try done; simpl.
    all: try (destruct ini, so; reflexivity).
    all: unfold advance; reflexivity.
  - destruct e, native; try done.
    all: try (destruct x, ini, so; try destruct ok; try destruct r;
              reflexivity).
  - destruct e, native; try done.
    all: unfold step, advance; cbn [timers clock];
      rewrite !filter_cons, !filter_nil; repeat case_decide; try lia;
      reflexivity.
Qed.



End SoundFacts.

(** * Further properties *)

(** ** Bearings and distances *)

Section GeodesyMore.
Local Open Scope R_scope.
Import JSMath Geodesy.

(** [Math.atan2] answers in [(-PI, PI]]. *)
Lemma atan2_bound (y x : R) : - PI < atan2 y x <= PI.
Proof.
  pose proof PI_RGT_0 as Hpi. pose proof (atan_bound (y / x)) as Hb.
  unfold atan2.
  destruct (Rlt_dec 0 x) as [Hx|Hx]; [lra|].
  destruct (Rlt_dec x 0) as [Hx'|Hx'].
  - destruct (Rle_dec 0 y) as [Hy|Hy].
    + assert (atan (y / x) <= 0); [|lra].
      destruct (Req_dec y 0) as [->|Hy0].
      * replace (0 / x) with 0 by (field; lra). rewrite atan_0. lra.
      * rewrite <- atan_0. left. apply atan_increasing.
        apply Rmult_pos_neg; [lra|]. by apply Rinv_lt_0_compat.
    + assert (0 < atan (y / x)); [|lra].
      rewrite <- atan_0. apply atan_increasing.
      apply Rmult_neg_neg; [lra|]. by apply Rinv_lt_0_compat.
  - destruct (Rlt_dec 0 y); [lra|]. destruct (Rlt_dec y 0); lra.
Qed.

Lemma rem_360 (x : R) : 180 < x <= 540 -> 0 <= rem x 360 < 360.
Proof.
  intros Hx. unfold rem.
  destruct (Rle_dec 0 (x / 360)) as [_|H]; [|lra].
  destruct (Rlt_le_dec x 360) as [Hlt|Hge].
  - rewrite <- (Int_part_spec (x / 360) 0) by lra. lra.
  - rewrite <- (Int_part_spec (x / 360) 1) by lra. lra.
Qed.

Lemma degrees_bound (t : R) : - PI < t <= PI -> -180 < t * (180 / PI) <= 180.
Proof.
  intros Ht. pose proof PI_RGT_0 as Hpi.
  assert (0 < 180 / PI) as Hk by (apply Rdiv_lt_0_compat; lra).
  assert (PI * (180 / PI) = 180) as Hk' by (field; lra).
  split; nra.
Qed.

(** X1: The bearing is always in [[0, 360)]. *)
Theorem calculateBearing_range (lat1 lon1 lat2 lon2 : R) :
  0 <= calculateBearing lat1 lon1 lat2 lon2 < 360.
Proof.
  unfold calculateBearing.
  destruct (_ || _); [lra|].
  unfold forwardAzimuth. cbv zeta. apply rem_360.
  match goal with |- context [atan2 ?y ?x] =>
    pose proof (degrees_bound _ (atan2_bound y x)) end.
  lra.
Qed.

Lemma guard_passes (lat1 lon1 lat2 lon2 : R) :
  lat1 <> 0 -> lon1 <> 0 -> lat2 <> 0 -> lon2 <> 0 ->
  falsy lat1 || falsy lon1 || falsy lat2 || falsy lon2 = false.
Proof.
  intros H1 H2 H3 H4. unfold falsy.
  destruct (Req_dec_T lat1 0), (Req_dec_T lon1 0), (Req_dec_T lat2 0),
    (Req_dec_T lon2 0); done.
Qed.

(** The angle of the point [(cos D, sin D)] for [D] in [[0, PI/2]]. *)
Lemma atan2_sin_cos (D : R) :
  0 <= D <= PI / 2 -> atan2 (sin D) (cos D) = D.
Proof.
  intros HD. pose proof PI_RGT_0 as Hpi.
  destruct (Req_dec D (PI / 2)) as [->|Hne].
  - rewrite sin_PI2, cos_PI2. unfold atan2.
    destruct (Rlt_dec 0 0); [lra|]. destruct (Rlt_dec 0 1); lra.
  - assert (0 < cos D) as Hc by (apply cos_gt_0; lra).
    unfold atan2. destruct (Rlt_dec 0 (cos D)); [|lra].
    change (sin D / cos D) with (tan D). apply atan_tan. lra.
Qed.

(** X3: Along a meridian the distance is the radius times the difference of
    the latitudes in radians. *)
Theorem calculateDistance_meridian (lat1 lat2 lon : R) :
  lat1 <> 0 -> lat2 <> 0 -> lon <> 0 -> Rabs (lat2 - lat1) <= 180 ->
  calculateDistance lat1 lon lat2 lon
  = 6371000 * (Rabs (lat2 - lat1) * PI / 180).
Proof.
  intros H1 H2 Hl Hd. pose proof PI_RGT_0 as Hpi.
  unfold calculateDistance. rewrite guard_passes by done.
  unfold haversine. cbv zeta.
  replace ((lon - lon) * PI / 180 / 2) with 0 by lra. rewrite sin_0.
  set (h := (lat2 - lat1) * PI / 180 / 2).
  set (D := Rabs (lat2 - lat1) * PI / 180 / 2).
  assert (0 <= D <= PI / 2) as HD.
  { subst D. pose proof (Rabs_pos (lat2 - lat1)). split; nra. }
  assert (sin h * sin h = Rsqr (sin D) /\ cos h = cos D) as [Hs Hc].
  { subst h D. unfold Rsqr.
    destruct (Rcase_abs (lat2 - lat1)) as [Hn|Hp].
    - rewrite (Rabs_left _ Hn).
      replace (- (lat2 - lat1) * PI / 180 / 2)
        with (- ((lat2 - lat1) * PI / 180 / 2)) by lra.
      rewrite sin_neg, cos_neg. split; [ring|done].
    - rewrite (Rabs_right _ Hp). done. }
  replace (sin h * sin h
           + cos (lat1 * PI / 180) * cos (lat2 * PI / 180) * 0 * 0)
    with (Rsqr (sin D)) by (rewrite Hs; ring).
  replace (1 - Rsqr (sin D)) with (Rsqr (cos D)) by (rewrite sin2; ring).
  rewrite !sqrt_Rsqr_abs.
  rewrite (Rabs_right (sin D)) by (apply Rle_ge, sin_ge_0; lra).
  rewrite (Rabs_right (cos D)) by (apply Rle_ge, cos_ge_0; lra).
  rewrite atan2_sin_cos by done. subst D. lra.
Qed.

Lemma calculateDistance_meridian_witness :
  calculateDistance 9.0579 7.4951 9.0619 7.4951
  = 6371000 * (Rabs (9.0619 - 9.0579) * PI / 180).
Proof.
  apply calculateDistance_meridian; try lra.
  rewrite Rabs_right; lra.
Defined.

Lemma round_int (k : Z) : round (IZR k) = k.
Proof. unfold round. symmetry. apply Int_part_spec. lra. Qed.

(** X4: Due north and due south: on one meridian the bearing to a point
    further north is 0, shown as N; to one further south it is 180,
    shown as S. *)
Theorem calculateBearing_meridian (lat1 lat2 lon : R) :
  lat1 <> 0 -> lat2 <> 0 -> lon <> 0 ->
  (0 < lat2 - lat1 < 180 ->
     calculateBearing lat1 lon lat2 lon = 0
     /\ getDirectionText (calculateBearing lat1 lon lat2 lon) = Some "N"%string)
  /\ (0 < lat1 - lat2 < 180 ->
        calculateBearing lat1 lon lat2 lon = 180
        /\ getDirectionText (calculateBearing lat1 lon lat2 lon)
           = Some "S"%string).
Proof.
  intros H1 H2 Hl. pose proof PI_RGT_0 as Hpi.
  unfold calculateBearing. rewrite guard_passes by done.
  unfold forwardAzimuth. cbv zeta.
  replace ((lon - lon) * PI / 180) with 0 by lra. rewrite sin_0, cos_0.
  set (p1 := lat1 * PI / 180). set (p2 := lat2 * PI / 180).
  replace (cos p1 * sin p2 - sin p1 * cos p2 * 1) with (sin (p2 - p1))
    by (rewrite sin_minus; ring).
  rewrite Rmult_0_l.
  split; intros Hd.
  - assert (0 < sin (p2 - p1)) as Hs
      by (apply sin_gt_0; subst p1 p2; nra).
    assert (atan2 0 (sin (p2 - p1)) = 0) as ->.
    { unfold atan2. destruct (Rlt_dec 0 (sin (p2 - p1))); [|lra].
      replace (0 / sin (p2 - p1)) with 0 by (field; lra). apply atan_0. }
    assert (rem (0 * (180 / PI) + 360) 360 = 0) as ->.
    { unfold rem. rewrite Rmult_0_l, Rplus_0_l.
      replace (360 / 360) with 1 by lra.
      destruct (Rle_dec 0 1); [|lra].
      rewrite <- (Int_part_spec 1 1) by lra. lra. }
    split; [done|]. unfold getDirectionText.
    rewrite (proj2 (falsy_true 0) eq_refl).
    replace (0 / 45) with (IZR 0) by lra. by rewrite round_int.
  - assert (sin (p2 - p1) < 0) as Hs
      by (apply sin_lt_0_var; subst p1 p2; nra).
    assert (atan2 0 (sin (p2 - p1)) = PI) as ->.
    { unfold atan2. destruct (Rlt_dec 0 (sin (p2 - p1))); [lra|].
      destruct (Rlt_dec (sin (p2 - p1)) 0); [|lra].
      destruct (Rle_dec 0 0); [|lra].
      replace (0 / sin (p2 - p1)) with 0 by (field; lra).
      rewrite atan_0. lra. }
    assert (rem (PI * (180 / PI) + 360) 360 = 180) as ->.
    { replace (PI * (180 / PI) + 360) with 540 by (field; lra).
      unfold rem. destruct (Rle_dec 0 (540 / 360)); [|lra].
      rewrite <- (Int_part_spec (540 / 360) 1) by lra. lra. }
    split; [done|]. unfold getDirectionText.
    assert (falsy 180 = false) as ->.
    { unfold falsy. destruct (Req_dec_T 180 0); [lra|done]. }
    replace (180 / 45) with (IZR 4) by lra. by rewrite round_int.
Qed.

Lemma calculateBearing_meridian_witness :
  (calculateBearing 9.0579 7.4951 9.0619 7.4951 = 0
   /\ getDirectionText (calculateBearing 9.0579 7.4951 9.0619 7.4951)
      = Some "N"%string)
  /\ (calculateBearing 9.0619 7.4951 9.0579 7.4951 = 180
      /\ getDirectionText (calculateBearing 9.0619 7.4951 9.0579 7.4951)
         = Some "S"%string).
Proof.
  split.
  - apply calculateBearing_meridian; lra.
  - apply calculateBearing_meridian; lra.
Defined.

Lemma round_nonneg (x : R) : 0 <= x -> (0 <= round x)%Z.
Proof.
  intros Hx. unfold round.
  destruct (base_Int_part (x + / 2)) as [H1 H2].
  apply Z.lt_succ_r, lt_IZR. rewrite succ_IZR. lra.
Qed.

Lemma direction_at_octant (i : Z) :
  (0 <= i < 8)%Z -> exists d, direction_at i = Some d /\ d ∈ directions.
Proof.
  intros Hi.
  assert (i = 0 \/ i = 1 \/ i = 2 \/ i = 3 \/ i = 4 \/ i = 5 \/ i = 6
          \/ i = 7)%Z as Hc by lia.
  clear Hi. unfold directions.
  repeat (destruct Hc as [->|Hc]); try subst i;
    (eexists; split; [reflexivity|set_solver]).
Qed.

(** X5: Whatever the two points, the computed bearing has a direction text,
    one of the eight. *)
Theorem getDirectionText_of_bearing (lat1 lon1 lat2 lon2 : R) :
  exists d,
    getDirectionText (calculateBearing lat1 lon1 lat2 lon2) = Some d
    /\ d ∈ directions.
Proof.
  pose proof (calculateBearing_range lat1 lon1 lat2 lon2) as Hb.
  set (b := calculateBearing lat1 lon1 lat2 lon2) in *.
  unfold getDirectionText. cbv zeta. rewrite or_zero_id.
  apply direction_at_octant.
  assert (0 <= round (b / 45))%Z as Hr by (apply round_nonneg; lra).
  apply Z.rem_bound_pos; [exact Hr|lia].
Qed.

(** X6: A negative bearing between -337.5 and -22.5 has no direction text:
    the index is negative and the lookup gives [undefined]. *)
Theorem getDirectionText_negative (bearing : R) :
  -337.5 <= bearing < -22.5 ->
  getDirectionText bearing = None /\ getDirectionText_card bearing = None.
Proof.
  intros Hb.
  assert (getDirectionText bearing = getDirectionText_card bearing) as ->.
  { unfold getDirectionText, getDirectionText_card. by rewrite or_zero_id. }
  assert (-7 <= round (bearing / 45) <= -1)%Z as Hr.
  { unfold round. destruct (base_Int_part (bearing / 45 + / 2)) as [H1 H2].
    split.
    - apply Z.lt_pred_le, lt_IZR. unfold Z.pred. rewrite plus_IZR. lra.
    - apply Z.lt_succ_r, lt_IZR. unfold Z.succ. rewrite plus_IZR. lra. }
  assert (getDirectionText_card bearing = None); [|done].
  unfold getDirectionText_card. cbv zeta.
  generalize dependent (round (bearing / 45)). intros n Hr.
  assert (n = -7 \/ n = -6 \/ n = -5 \/ n = -4 \/ n = -3 \/ n = -2
          \/ n = -1)%Z as Hc by lia.
  clear Hr. repeat (destruct Hc as [->|Hc]); try subst n; reflexivity.
Qed.

Lemma getDirectionText_negative_witness :
  getDirectionText (-90) = None /\ getDirectionText_card (-90) = None.
Proof. apply getDirectionText_negative. lra. Defined.
End GeodesyMore.

(** ** The home screen, further *)

Section HomeMore.
Local Open Scope Z_scope.
Import Home.

(** X7: The cooldown, from whatever value it starts at: [n] firings take it
    to [max 0 (c - n)] and release the trigger once 0 is reached; a
    cooldown that is not positive is never touched, so a trigger held
    without a cooldown stays held. *)
Theorem cooldownTick_iter (n : nat) (s : Home.t) :
  let c := AlertStore.cooldownRemaining (store s) in
  let sn := Nat.iter n cooldownTick s in
  (c <= 0 -> sn = s)
  /\ (0 < c ->
        AlertStore.cooldownRemaining (store sn) = Z.max 0 (c - Z.of_nat n)
        /\ AlertStore.canTrigger (store sn)
           = (if bool_decide (c <= Z.of_nat n) then true
              else AlertStore.canTrigger (store s))).
Proof.
  cbv zeta. split.
  - intros Hc. induction n as [|n IH]; [done|].
    rewrite Nat.iter_succ, IH. unfold cooldownTick.
    by rewrite (proj2 (Z.leb_le _ _) Hc).
  - intros Hc. induction n as [|n (IH1 & IH2)].
    + simpl. split; [lia|]. by rewrite bool_decide_eq_false_2 by lia.
    + rewrite Nat.iter_succ.
      destruct (cooldownTick_spec (Nat.iter n cooldownTick s)) as (C1 & C2).
      rewrite IH1 in C1, C2. rewrite C1, C2, IH2. split.
      * destruct (Z.leb_spec (Z.max 0
          (AlertStore.cooldownRemaining (store s) - Z.of_nat n)) 0); lia.
      * destruct (Z.ltb_spec 0 (Z.max 0
          (AlertStore.cooldownRemaining (store s) - Z.of_nat n)));
        destruct (Z.leb_spec (Z.max 0
          (AlertStore.cooldownRemaining (store s) - Z.of_nat n)) 1);
        simpl; repeat case_bool_decide; try done; lia.
Qed.

Lemma cooldownTick_iter_witness :
  AlertStore.cooldownRemaining (store (Nat.iter 42 cooldownTick cooling)) = 0
  /\ AlertStore.canTrigger (store (Nat.iter 42 cooldownTick cooling)) = true
  /\ Nat.iter 42 cooldownTick idle = idle.
Proof.
  destruct (cooldownTick_iter 42 cooling) as (_ & H).
  destruct (cooldownTick_iter 42 idle) as (H0 & _).
  destruct H as (H1 & H2); [reflexivity|].
  split; [exact H1|]. split; [exact H2|]. apply H0. reflexivity.
Defined.

(** The nearby list the handler leaves: the list of the render it was
    created in, without the ended alert. *)
Lemma onAlertEnded_nearby (seen s : Home.t) (data : AlertEnded.t) :
  AlertStore.nearbyAlerts (store (onAlertEnded seen data s))
  = filter (fun a => Alert.alert_id a <> AlertEnded.alert_id data)
      (AlertStore.nearbyAlerts (store seen)).
Proof. unfold onAlertEnded. by repeat case_decide. Qed.

Lemma onAlertEnded_incoming (seen s : Home.t) (data : AlertEnded.t) :
  incomingAlert (onAlertEnded seen data s)
  = if decide (Alert.alert_id <$> incomingAlert seen
               = Some (AlertEnded.alert_id data))
    then None else incomingAlert s.
Proof. unfold onAlertEnded. by repeat case_decide. Qed.

(** X9: The [alert_ended] handler works on the render it was made in:
    the nearby list it stores holds the alerts of that render's list
    except those with the ended id, whatever the list is by now; it
    clears the banner when that render's banner alert has the ended id,
    and otherwise leaves the banner as it is now. *)
Theorem onAlertEnded_inbox (seen s : Home.t) (data : AlertEnded.t) :
  (forall a,
     a ∈ AlertStore.nearbyAlerts (store (onAlertEnded seen data s)) <->
     a ∈ AlertStore.nearbyAlerts (store seen)
     /\ Alert.alert_id a <> AlertEnded.alert_id data)
  /\ (Alert.alert_id <$> incomingAlert seen = Some (AlertEnded.alert_id data)
      -> incomingAlert (onAlertEnded seen data s) = None)
  /\ (Alert.alert_id <$> incomingAlert seen <> Some (AlertEnded.alert_id data)
      -> incomingAlert (onAlertEnded seen data s) = incomingAlert s).
Proof.
  split; [|split].
  - intros a. rewrite onAlertEnded_nearby, list_elem_of_filter. tauto.
  - intros He. rewrite onAlertEnded_incoming. by rewrite decide_True.
  - intros Hne. rewrite onAlertEnded_incoming. by rewrite decide_False.
Qed.

Lemma onAlertEnded_inbox_witness :
  incomingAlert (onAlertEnded alerted (ended "alert-far") alerted) = None
  /\ AlertStore.nearbyAlerts
       (store (onAlertEnded alerted (ended "alert-far") alerted)) = []
  /\ incomingAlert (onAlertEnded idle (ended "alert-far") alerted)
     = incomingAlert alerted.
Proof.
  destruct (onAlertEnded_inbox alerted alerted (ended "alert-far"))
    as (_ & H1 & _).
  destruct (onAlertEnded_inbox idle alerted (ended "alert-far"))
    as (_ & _ & H2).
  split; [by apply H1|]. split; [reflexivity|].
  apply H2. simpl. discriminate.
Defined.

(** X10: A press never leaves the processing flag changed and never touches
    the banner; unless it ends in "Alert Sent" it leaves the device's own
    alert state as it was; and it ends in "Alert Sent" only with the id
    the server answered, the alert active under that id: nothing is shown
    active ahead of the answer. *)
Theorem handleEmergencyPress_outcomes (env : PressEnv) (s : Home.t) :
  isProcessing (snd (handleEmergencyPress env s)) = isProcessing s
  /\ incomingAlert (snd (handleEmergencyPress env s)) = incomingAlert s
  /\ ((forall id, fst (handleEmergencyPress env s) <> AlertSent id) ->
        ownAlertState (snd (handleEmergencyPress env s)) = ownAlertState s)
  /\ (forall id, fst (handleEmergencyPress env s) = AlertSent id ->
        triggerAlert env = Some id
        /\ MyAlert.alert_id <$>
             AlertStore.myActiveAlert (store (snd (handleEmergencyPress env s)))
           = Some id
        /\ AlertStore.myActiveAlert (store s) = None).
Proof.
  unfold handleEmergencyPress.
  destruct (isProcessing s) eqn:Ep; [done|].
  case_bool_decide as Ha; [done|].
  destruct (negb (hasPermission env)); [done|].
  destruct (negb (AlertStore.canTrigger (store s))); [done|].
  destruct (getCurrentLocation env) as [loc|]; [|done].
  destruct (triggerAlert env) as [id|]; simpl.
  - split; [done|]. split; [done|]. split.
    + intros H. by destruct (H id).
    + intros id' [= <-]. split; [done|]. split; [done|].
      destruct (AlertStore.myActiveAlert (store s)); [|done].
      destruct Ha. by eexists.
  - done.
Qed.

Lemma handleEmergencyPress_outcomes_witness :
  ownAlertState (snd (handleEmergencyPress noPermission cooling))
    = ownAlertState cooling
  /\ (triggerAlert goodPress = Some "alert-1"%string
      /\ MyAlert.alert_id <$> AlertStore.myActiveAlert (store triggered)
         = Some "alert-1"%string
      /\ AlertStore.myActiveAlert (store idle) = None).
Proof.
  split.
  - destruct (handleEmergencyPress_outcomes noPermission cooling)
      as (_ & _ & H & _).
    apply H. intros id. discriminate.
  - destruct (handleEmergencyPress_outcomes goodPress idle)
      as (_ & _ & _ & H).
    apply (H "alert-1"%string). reflexivity.
Defined.

(** X11: A touchable that is disabled hides no press that would have gone
    through: while it is disabled every press is refused. *)
Theorem touchableDisabled_refused (env : PressEnv) (s : Home.t) (id : string) :
  touchableDisabled s = true ->
  fst (handleEmergencyPress env s) <> AlertSent id.
Proof.
  unfold touchableDisabled, buttonDisabledProp, handleEmergencyPress.
  intros Hd.
  destruct (isProcessing s); [done|].
  case_bool_decide; [done|]. simpl in Hd.
  destruct (negb (hasPermission env)); [done|].
  destruct (AlertStore.canTrigger (store s)); simpl in *; done.
Qed.

Lemma touchableDisabled_refused_witness :
  fst (handleEmergencyPress goodPress cooling) <> AlertSent "alert-1"
  /\ fst (handleEmergencyPress goodPress triggered) <> AlertSent "alert-1".
Proof.
  split.
  - by apply touchableDisabled_refused.
  - by apply touchableDisabled_refused.
Defined.

(** X12: The touchable can be enabled while the trigger is held: with the
    trigger held and no cooldown left, the press is taken and answered
    "Cooldown Active", 0 seconds. *)
Theorem touchable_enabled_trigger_held (env : PressEnv) (s : Home.t) :
  AlertStore.canTrigger (store s) = false ->
  AlertStore.cooldownRemaining (store s) <= 0 ->
  AlertStore.myActiveAlert (store s) = None ->
  isProcessing s = false -> hasPermission env = true ->
  touchableDisabled s = false
  /\ handleEmergencyPress env s
     = (CooldownActive (AlertStore.cooldownRemaining (store s)), s)
  /\ forall n, Nat.iter n cooldownTick s = s.
Proof.
  intros Hc Hr Ha Hp Hperm.
  unfold touchableDisabled, buttonDisabledProp, handleEmergencyPress.
  rewrite Hc, Ha, Hp, Hperm. simpl.
  rewrite (proj2 (Z.ltb_ge _ _) Hr).
  split; [done|]. split; [done|].
  intros n. by apply (cooldownTick_iter n s).
Qed.

Lemma touchable_enabled_trigger_held_witness :
  let held := onStore (AlertStore.setCanTrigger false) idle in
  touchableDisabled held = false
  /\ handleEmergencyPress goodPress held = (CooldownActive 0, held)
  /\ forall n, Nat.iter n cooldownTick held = held.
Proof.
  apply (touchable_enabled_trigger_held goodPress
           (onStore (AlertStore.setCanTrigger false) idle));
    first [reflexivity | simpl; lia].
Defined.

(** X13: Dismissing is not remembered, and what the next fetch does is
    decided by the render its closure was made in (the polling effect
    does not depend on the banner): a fetch that lists alerts puts the
    first of them on the banner again, the dismissed one included, when
    that render had no alert on the banner and none of its own; it
    leaves the banner empty when that render had an alert on the banner;
    either way it stores the list. *)
Theorem dismissed_alert_returns
    (seen s : Home.t) (a : Alert.t) (rest : list Alert.t) :
  let s1 := handleDismissAlert s in
  let s2 := onNearbyAlerts seen (a :: rest) s1 in
  incomingAlert s1 = None
  /\ (AlertStore.myActiveAlert (store seen) = None ->
      incomingAlert seen = None -> incomingAlert s2 = Some a)
  /\ (is_Some (incomingAlert seen) -> incomingAlert s2 = None)
  /\ AlertStore.nearbyAlerts (store s2) = a :: rest.
Proof.
  cbv zeta. unfold onNearbyAlerts, handleDismissAlert.
  split; [done|]. split; [|split].
  - by intros -> ->.
  - intros [b ->]. by destruct (AlertStore.myActiveAlert (store seen)).
  - by destruct (AlertStore.myActiveAlert (store seen)), (incomingAlert seen).
Qed.

(** X14: A fetch changes the banner in one case only: the list is not empty
    and the render it runs in has neither an alert of its own nor one on
    the banner. *)
Theorem onNearbyAlerts_banner (seen s : Home.t) (alerts : list Alert.t) :
  (alerts = [] \/ is_Some (AlertStore.myActiveAlert (store seen))
   \/ is_Some (incomingAlert seen)) ->
  incomingAlert (onNearbyAlerts seen alerts s) = incomingAlert s
  /\ ownAlertState (onNearbyAlerts seen alerts s) = ownAlertState s.
Proof.
  unfold onNearbyAlerts. intros [->|[[m Hm]|[i Hi]]].
  - done.
  - rewrite Hm. by destruct alerts.
  - rewrite Hi. by destruct alerts, (AlertStore.myActiveAlert (store seen)).
Qed.

Lemma onNearbyAlerts_banner_witness :
  incomingAlert (onNearbyAlerts triggered [] triggered)
    = incomingAlert triggered
  /\ ownAlertState (onNearbyAlerts triggered [] triggered)
     = ownAlertState triggered.
Proof. apply onNearbyAlerts_banner. by left. Defined.

Lemma dismissed_alert_returns_witness :
  let s1 := handleDismissAlert alerted in
  incomingAlert s1 = None
  /\ incomingAlert (onNearbyAlerts idle [farListed] s1) = Some farListed
  /\ incomingAlert (onNearbyAlerts alerted [farListed] s1) = None
  /\ AlertStore.nearbyAlerts (store (onNearbyAlerts idle [farListed] s1))
     = [farListed].
Proof.
  destruct (dismissed_alert_returns idle alerted farListed [])
    as (H1 & H2 & _ & H4).
  destruct (dismissed_alert_returns alerted alerted farListed [])
    as (_ & _ & H3 & _).
  split; [exact H1|]. split; [by apply H2|].
  split; [apply H3; by eexists|exact H4].
Defined.

(** X15: An alert taken over from the device status has no start time: it is
    active, and no run of the two timers, whatever the clock shows, ends
    it on this device. *)
Theorem restored_alert_never_expires
    (seen s : Home.t) (status : DeviceStatus) (id : string) :
  has_active_alert status = true -> active_alert_id status = Some id ->
  id <> EmptyString -> alertStartTime s = None ->
  let s1 := applyStatus seen status s in
  MyAlert.alert_id <$> AlertStore.myActiveAlert (store s1) = Some id
  /\ forall clocks : list Z,
       AlertStore.myActiveAlert (store (foldr tickAt s1 clocks))
       = AlertStore.myActiveAlert (store s1).
Proof.
  intros Hh Hi Hne Hs. cbv zeta.
  assert (alertStartTime (applyStatus seen status s) = None) as Hs1.
  { unfold applyStatus. rewrite Hh, Hi. by rewrite decide_False by done. }
  split.
  - unfold applyStatus. rewrite Hh, Hi. by rewrite decide_False by done.
  - intros clocks.
    assert (AlertStore.myActiveAlert
              (store (foldr tickAt (applyStatus seen status s) clocks))
            = AlertStore.myActiveAlert (store (applyStatus seen status s))
            /\ alertStartTime
                 (foldr tickAt (applyStatus seen status s) clocks) = None)
      as [H _]; [|exact H].
    induction clocks as [|c clocks [IH1 IH2]]; [done|]. simpl.
    destruct (tickAt_no_start c _ IH2) as [T1 T2].
    split; [by rewrite T1|exact T2].
Qed.

Lemma restored_alert_never_expires_witness :
  let status := {| can_trigger_alert := false; cooldown_remaining := 0;
                   has_active_alert := true;
                   active_alert_id := Some "alert-9"%string |} in
  let s1 := applyStatus idle status idle in
  MyAlert.alert_id <$> AlertStore.myActiveAlert (store s1)
    = Some "alert-9"%string
  /\ forall clocks : list Z,
       AlertStore.myActiveAlert (store (foldr tickAt s1 clocks))
       = AlertStore.myActiveAlert (store s1).
Proof.
  apply (restored_alert_never_expires idle idle); try reflexivity.
  discriminate.
Defined.
End HomeMore.

(** ** The realtime channel, further *)

Section SocketMore.
Import Socket.

(** X16: [connect] for the device already connected changes nothing; in every
    other case the service starts over with a new socket, and once that
    is connected the device is in its own device room and in no room
    joined before. *)
Theorem connect_device_room (d : string) (svc : Socket.t) :
  d <> EmptyString ->
  (isConnected svc = true -> deviceId svc = Some d -> connect d svc = svc)
  /\ (isConnected svc = false \/ deviceId svc <> Some d ->
        let svc' := onConnect (connect d svc) in
        joinedRooms svc' = {[ DeviceRoom d ]}
        /\ deviceId svc' = Some d /\ isConnected svc' = true).
Proof.
  intros Hd. unfold connect, isConnected. split.
  - intros Hc Hdev. destruct (socket svc) as [sock|]; [|done].
    simpl in *. rewrite Hc, Hdev.
    by rewrite !bool_decide_eq_true_2 by done.
  - intros Hor. cbv zeta.
    assert (bool_decide (connected <$> socket svc = Some true)
            && bool_decide (deviceId svc = Some d) = false) as ->.
    { destruct Hor as [Hc|Hdev].
      - rewrite bool_decide_eq_false_2; [done|].
        destruct (socket svc) as [sock|]; simpl in *; congruence.
      - rewrite (bool_decide_eq_false_2 (deviceId svc = Some d)) by done.
        apply andb_false_r. }
    unfold onConnect, joinDeviceRoom, joinedRooms. simpl.
    rewrite decide_False by done. simpl. split; [set_solver|done].
Qed.

Lemma connect_device_room_witness :
  connect "device-1" session = session
  /\ (let svc' := onConnect (connect "device-2" session) in
      joinedRooms svc' = {[ DeviceRoom "device-2" ]}
      /\ deviceId svc' = Some "device-2"%string /\ isConnected svc' = true).
Proof.
  split.
  - apply (connect_device_room "device-1" session); done.
  - apply (connect_device_room "device-2" session); [done|].
    right. simpl. discriminate.
Defined.

(** X17: After [disconnect] nothing is joined, a subscription is dropped
    without a trace, and a later connect joins the device room only. *)
Theorem subscribe_after_disconnect (a d : string) (svc : Socket.t) :
  d <> EmptyString ->
  isConnected (disconnect svc) = false
  /\ joinedRooms (disconnect svc) = ∅
  /\ subscribeToAlert a (disconnect svc) = disconnect svc
  /\ joinedRooms
       (onConnect (connect d (subscribeToAlert a (disconnect svc))))
     = {[ DeviceRoom d ]}.
Proof.
  intros Hd. split; [done|]. split; [done|]. split; [done|].
  apply (connect_device_room d (subscribeToAlert a (disconnect svc)) Hd).
  by left.
Qed.

Lemma subscribe_after_disconnect_witness :
  isConnected (disconnect session) = false
  /\ joinedRooms (disconnect session) = ∅
  /\ subscribeToAlert "alert-7" (disconnect session) = disconnect session
  /\ joinedRooms
       (onConnect (connect "device-1"
                     (subscribeToAlert "alert-7" (disconnect session))))
     = {[ DeviceRoom "device-1" ]}.
Proof. by apply subscribe_after_disconnect. Defined.

Lemma onConnectError_iter (n : nat) (svc : Socket.t) (sock : Socket) :
  socket svc = Some sock ->
  socket (Nat.iter n onConnectError svc) = Some sock
  /\ deviceId (Nat.iter n onConnectError svc) = deviceId svc
  /\ reconnectAttempts (Nat.iter n onConnectError svc)
     = match listeners sock with
       | AllListeners => reconnectAttempts svc + n
       | ConnectOnly => reconnectAttempts svc
       end.
Proof.
  intros Hs. induction n as [|n (IH1 & IH2 & IH3)].
  - simpl. rewrite Hs. split; [done|]. split; [done|].
    destruct (listeners sock); lia.
  - rewrite Nat.iter_succ. unfold onConnectError at 1 3 5. rewrite IH1.
    destruct (listeners sock); simpl; rewrite ?IH1, ?IH2, ?IH3;
      (split; [done|]); (split; [done|]); lia.
Qed.

Lemma joinDeviceRoom_attempts (svc : Socket.t) :
  reconnectAttempts (joinDeviceRoom svc) = reconnectAttempts svc.
Proof.
  unfold joinDeviceRoom.
  destruct (socket svc), (deviceId svc); try done. by case_decide.
Qed.

(** X18: With the listeners [connect] installs, every connection error adds
    one to the attempts counter and the next connect sets it back to
    0. *)
Theorem reconnectAttempts_counted (n : nat) (svc : Socket.t) :
  listeners <$> socket svc = Some AllListeners ->
  reconnectAttempts (Nat.iter n onConnectError svc)
    = reconnectAttempts svc + n
  /\ reconnectAttempts (onConnect (Nat.iter n onConnectError svc)) = 0.
Proof.
  destruct (socket svc) as [sock|] eqn:Hs; [|done]. simpl. intros [= Hl].
  destruct (onConnectError_iter n svc sock Hs) as (I1 & _ & I3).
  rewrite Hl in I3. split; [exact I3|].
  unfold onConnect. rewrite I1, Hl. by rewrite joinDeviceRoom_attempts.
Qed.

Lemma reconnectAttempts_counted_witness :
  reconnectAttempts (Nat.iter 3 onConnectError session) = 3
  /\ reconnectAttempts (onConnect (Nat.iter 3 onConnectError session)) = 0.
Proof. by apply (reconnectAttempts_counted 3 session). Defined.

(** X19: After [removeAllListeners] the rooms joined are as they were and a
    reconnect still joins the device room, but connection errors are not
    counted any more and a connect does not set the counter back. *)
Theorem removeAllListeners_effect
    (reason d : string) (n : nat) (svc : Socket.t) :
  isConnected svc = true -> sendBuffer <$> socket svc = Some [] ->
  deviceId svc = Some d -> d <> EmptyString ->
  let svc' := removeAllListeners svc in
  joinedRooms svc' = joinedRooms svc
  /\ joinedRooms (dropAndReconnect reason svc') = {[ DeviceRoom d ]}
  /\ reconnectAttempts (onConnect (Nat.iter n onConnectError svc'))
     = reconnectAttempts svc.
Proof.
  intros Hc Hb Hdev Hd. cbv zeta.
  unfold isConnected in Hc. destruct svc as [[sock|] dev k]; [|done].
  simpl in *. split; [done|]. split.
  - apply dropAndReconnect_rooms; done.
  - set (sock' := {| connected := connected sock;
                     sendBuffer := sendBuffer sock; rooms := rooms sock;
                     listeners := ConnectOnly |}).
    destruct (onConnectError_iter n
                (removeAllListeners
                   {| socket := Some sock; deviceId := dev;
                      reconnectAttempts := k |}) sock' eq_refl)
      as (I1 & _ & I3).
    simpl in I3. unfold onConnect. rewrite I1. simpl.
    by rewrite joinDeviceRoom_attempts.
Qed.

Lemma removeAllListeners_effect_witness :
  let svc' := removeAllListeners session in
  joinedRooms svc' = joinedRooms session
  /\ joinedRooms (dropAndReconnect "transport close" svc')
     = {[ DeviceRoom "device-1" ]}
  /\ reconnectAttempts (onConnect (Nat.iter 3 onConnectError svc'))
     = reconnectAttempts session.
Proof.
  by apply (removeAllListeners_effect "transport close" "device-1").
Defined.
End SocketMore.

(** ** Sound bursts over time *)

Section SoundMore.
Local Open Scope Z_scope.
Import EmergencySound.

(** X20: As long as [stopEmergencyAlert] is not called, at most one thing is
    under way at any time, a run of the sound player or a cleanup
    timeout, and exactly one while [isPlaying] is set. *)
Theorem one_run_at_a_time (native : bool) (es : list Event) :
  Forall (fun e => isStop e = false) es ->
  let s := run native initial es in
  (length (pending s) + length (timers s)
   = if isPlaying s then 1 else 0)%nat.
Proof.
  intros Hes. cbv zeta. unfold run.
  assert ((length (pending initial) + length (timers initial)
           = if isPlaying initial then 1 else 0)%nat) as H0 by reflexivity.
  revert H0. generalize initial.
  induction Hes as [|e es He _ IH]; intros s Hs; [exact Hs|].
  simpl. apply IH. by apply step_one_run.
Qed.

Lemma one_run_at_a_time_witness :
  let s := run true initial
             [Burst; Burst; InitDone true; CreateDone (Some 1%nat); Burst;
              Elapse true 4000; Burst] in
  (length (pending s) + length (timers s)
   = if isPlaying s then 1 else 0)%nat.
Proof.
  apply (one_run_at_a_time true). repeat constructor.
Defined.

(** X21: [stopEmergencyAlert] clears the flag and the sound but leaves the
    cleanup timeout armed. A burst started after the stop is then ended
    by the timeout of the burst before it, ahead of its own 4000 ms. *)
Theorem stop_leaves_timeout
    (s : EmergencySound.t) (d : Z) (h : nat) (ok : bool) :
  isPlaying s = true -> pending s = [] -> timers s = [d] ->
  isInitialized s = true -> clock s < d < clock s + 4000 ->
  let s1 := stopEmergencyAlert s in
  let s2 := createDone (Some h) (playAlertBurst true s1) in
  let s3 := advance ok (d - clock s) s2 in
  (isPlaying s1 = false /\ soundObject s1 = None /\ timers s1 = [d])
  /\ (isPlaying s2 = true /\ soundObject s2 = Some h
      /\ timers s2 = [d; clock s + 4000])
  /\ (isPlaying s3 = false /\ timers s3 = [clock s + 4000]
      /\ soundObject s3 = if ok then None else Some h).
Proof.
  intros Hp Hq Ht Hi Hd. cbv zeta.
  destruct s as [so ini pl pe ti cl vi sn]. simpl in *. subst.
  split; [done|]. split; [done|].
  match goal with |- context [advance ok _ ?s2] =>
    assert (s2 = {| soundObject := Some h; isInitialized := true;
                    isPlaying := true; pending := [];
                    timers := [d; cl + 4000]; clock := cl;
                    vibrations := S vi; sounds := S sn |}) as ->
      by reflexivity end.
  unfold advance. cbn [timers clock].
  rewrite !filter_cons, !filter_nil.
  repeat case_decide; try lia. done.
Qed.

Lemma stop_leaves_timeout_witness :
  let s := advance true 1000 (createDone (Some 1%nat) bursting) in
  let s2 :=
    createDone (Some 2%nat) (playAlertBurst true (stopEmergencyAlert s)) in
  let s3 := advance true 3000 s2 in
  (isPlaying s2 = true /\ soundObject s2 = Some 2%nat
   /\ timers s2 = [4000; 5000])
  /\ (isPlaying s3 = false /\ timers s3 = [5000] /\ soundObject s3 = None).
Proof.
  destruct (stop_leaves_timeout
              (advance true 1000 (createDone (Some 1%nat) bursting))
              4000 2%nat true) as (_ & H2 & H3);
    first [reflexivity | simpl; lia | idtac].
  split; [exact H2|exact H3].
Defined.
End SoundMore.

(** ** The alert view *)

Section AlertViewMore.
Local Open Scope Z_scope.
Import AlertView.

(** X22: A location update for the alert on view, with latitude and longitude
    both non-zero, becomes the latest location; an update for another
    alert, or with a latitude or longitude that is missing or 0, leaves
    the history as it is. *)
Theorem onAlertLocationUpdated_latest
    (alertId : string) (data : LocationUpdated.t)
    (history : list HistoryEntry.t) (detailsLat detailsLon : R) :
  let history' := onAlertLocationUpdated alertId data history in
  (forall lat lon,
     LocationUpdated.alert_id data = Some alertId ->
     LocationUpdated.latitude data = Some lat -> lat <> 0%R ->
     LocationUpdated.longitude data = Some lon -> lon <> 0%R ->
     latestLoc history' detailsLat detailsLon = (lat, lon)
     /\ length history' = S (length history))
  /\ (LocationUpdated.alert_id data <> Some alertId
      \/ truthy (LocationUpdated.latitude data) = None
      \/ truthy (LocationUpdated.longitude data) = None ->
      history' = history).
Proof.
  cbv zeta. unfold onAlertLocationUpdated. split.
  - intros lat lon Hid Hlat Hlat0 Hlon Hlon0. rewrite Hlat, Hlon. simpl.
    unfold JSMath.falsy.
    destruct (Req_dec_T lat 0); [done|]. destruct (Req_dec_T lon 0); [done|].
    rewrite decide_True by done. unfold latestLoc.
    rewrite last_snoc, length_app. simpl. split; [done|lia].
  - intros [Hid|[Hl|Hl]].
    + destruct (truthy (LocationUpdated.latitude data)),
        (truthy (LocationUpdated.longitude data)); try done.
      by rewrite decide_False.
    + by rewrite Hl.
    + rewrite Hl. by destruct (truthy (LocationUpdated.latitude data)).
Qed.

Lemma onAlertLocationUpdated_latest_witness :
  let moved := {| LocationUpdated.alert_id := Some "alert-7"%string;
                  LocationUpdated.latitude := Some 9.06%R;
                  LocationUpdated.longitude := Some 7.5%R;
                  LocationUpdated.heading := None;
                  LocationUpdated.timestamp := None |} in
  let equator := {| LocationUpdated.alert_id := Some "alert-7"%string;
                    LocationUpdated.latitude := Some 0%R;
                    LocationUpdated.longitude := Some 7.5%R;
                    LocationUpdated.heading := None;
                    LocationUpdated.timestamp := None |} in
  latestLoc (onAlertLocationUpdated "alert-7" moved []) 9.0579%R 7.4951%R
    = (9.06%R, 7.5%R)
  /\ onAlertLocationUpdated "alert-7" equator [] = [].
Proof.
  intros moved equator. split.
  - apply (onAlertLocationUpdated_latest "alert-7" moved []);
      first [reflexivity | lra].
  - apply (onAlertLocationUpdated_latest "alert-7" equator [] 0%R 0%R).
    right; left. simpl. by rewrite (proj2 (falsy_true 0%R) eq_refl).
Defined.

(** X23: What [formatTimeAgo] shows for a date [t]: "just now" up to 10
    seconds back, and for any date ahead of the clock; whole seconds from
    10 to 59; whole minutes from 1 to 59; the clock time from one hour
    on. *)
Theorem formatTimeAgo_ranges (isoString : string) (t now : Z) :
  isoString <> EmptyString ->
  match formatTimeAgo isoString (Some t) now with
  | JustNow => now - t < 10000
  | SecondsAgo n => n = (now - t) / 1000 /\ 10 <= n <= 59
  | MinutesAgo n => n = (now - t) / 60000 /\ 1 <= n <= 59
  | ClockTime => 3600000 <= now - t
  end.
Proof.
  intros Hne. unfold formatTimeAgo. rewrite decide_False by done. cbv zeta.
  pose proof (Z.div_mod (now - t) 1000 ltac:(lia)) as H1.
  pose proof (Z.mod_pos_bound (now - t) 1000 ltac:(lia)) as H2.
  pose proof (Z.div_mod ((now - t) / 1000) 60 ltac:(lia)) as H3.
  pose proof (Z.mod_pos_bound ((now - t) / 1000) 60 ltac:(lia)) as H4.
  destruct (Z.ltb_spec ((now - t) / 1000) 10); [lia|].
  destruct (Z.ltb_spec ((now - t) / 1000) 60); [lia|].
  destruct (Z.ltb_spec ((now - t) / 1000 / 60) 60).
  - rewrite Z.div_div by lia. rewrite Z.div_div in * by lia.
    change (1000 * 60) with 60000 in *. lia.
  - lia.
Qed.

Lemma formatTimeAgo_ranges_witness :
  match formatTimeAgo "2025-01-01T10:00:00Z"
          (Some 1735725600000) 1735725725000 with
  | JustNow => 1735725725000 - 1735725600000 < 10000
  | SecondsAgo n =>
      n = (1735725725000 - 1735725600000) / 1000 /\ 10 <= n <= 59
  | MinutesAgo n =>
      n = (1735725725000 - 1735725600000) / 60000 /\ 1 <= n <= 59
  | ClockTime => 3600000 <= 1735725725000 - 1735725600000
  end.
Proof. apply formatTimeAgo_ranges. discriminate. Defined.

(** X24: The readout of the alert view either stays as it was, when one of
    the four numbers is 0, or shows the haversine distance and the
    forward azimuth: the 0 that [calculateDistance] and
    [calculateBearing] answer for a zero component is never put on
    display from here. *)
Theorem updateDistanceAndBearing_readout
    (myLat myLon alertLat alertLon : R) (shown : Readout) :
  let shown' := updateDistanceAndBearing myLat myLon alertLat alertLon shown in
  (myLat = 0 \/ myLon = 0 \/ alertLat = 0 \/ alertLon = 0 -> shown' = shown)%R
  /\ (myLat <> 0 -> myLon <> 0 -> alertLat <> 0 -> alertLon <> 0 ->
      realTimeDistance shown'
        = Some (Geodesy.haversine myLat myLon alertLat alertLon)
      /\ bearing shown'
         = Geodesy.forwardAzimuth myLat myLon alertLat alertLon
      /\ myLocation shown' = Some (myLat, myLon))%R.
Proof.
  cbv zeta. unfold updateDistanceAndBearing, Geodesy.calculateDistance,
    Geodesy.calculateBearing.
  split.
  - intros H.
    assert (JSMath.falsy myLat || JSMath.falsy myLon
            || JSMath.falsy alertLat || JSMath.falsy alertLon = true) as ->;
      [|done].
    destruct H as [H|[H|[H|H]]]; apply falsy_true in H; rewrite H;
      by repeat (rewrite ?orb_true_r, ?orb_true_l).
  - intros H1 H2 H3 H4.
    assert (JSMath.falsy myLat || JSMath.falsy myLon
            || JSMath.falsy alertLat || JSMath.falsy alertLon = false) as ->;
      [|done].
    unfold JSMath.falsy.
    destruct (Req_dec_T myLat 0), (Req_dec_T myLon 0),
      (Req_dec_T alertLat 0), (Req_dec_T alertLon 0); done.
Qed.

Lemma updateDistanceAndBearing_readout_witness :
  let shown := {| realTimeDistance := Some 450%R; bearing := 0%R;
                  myLocation := Some (9.0579, 7.4951)%R |} in
  updateDistanceAndBearing 0 7.4951 9.0619 7.4951 shown = shown
  /\ realTimeDistance
       (updateDistanceAndBearing 9.0579 7.4951 9.0619 7.4951 shown)
     = Some (Geodesy.haversine 9.0579 7.4951 9.0619 7.4951).
Proof.
  intros shown. split.
  - apply (updateDistanceAndBearing_readout 0 7.4951 9.0619 7.4951 shown).
    by left.
  - apply (updateDistanceAndBearing_readout 9.0579 7.4951 9.0619 7.4951 shown);
      lra.
Defined.
End AlertViewMore.
